(** * MASR Conformer model: the training forward pass and its loss blending

    A shallow embedding of [masr/model_utils/conformer/model.py].

    - Python floats ([ctc_weight], [reverse_weight]) are IEEE-754 binary64
      numbers: Rocq's primitive [float], with [=?], [<?], [<=?], [+], [-], [*]
      for Python's [==], [<], [<=], [+], [-], [*].
    - A tensor of rank one or more is opaque; only its [shape] is observed.
    - A scalar (0-dim) floating tensor, such as a loss, is its dtype and the
      number it holds.  Arithmetic on scalars is IEEE arithmetic in the
      dtype of the tensor, as torch performs it: a Python float that meets
      a tensor is first rounded to the tensor's dtype, and two tensors that
      meet are first brought to their promoted dtype.  The dtypes covered
      are [float32] (torch's default) and [float64].
    - The encoder, the decoders, the CTC head, the label-smoothing criterion
      and the helpers of [utils.common] are collaborators whose code is not
      in [model.py]: they are fields of records, taken as functions of their
      arguments that always return, and every call to one of them is logged,
      so that "this path is never invoked" is a statement about the log.
    - Python exceptions are values of [exn]; a computation is a pair of the
      log of collaborator calls and either an exception or a result.  An
      exception keeps the log up to the point where it was raised. *)

From Stdlib Require Import ZArith List Bool Lia Floats String.
Import ListNotations.

Set Implicit Arguments.

(** ** Exceptions, call log and the computation monad *)

(** [torch.Size]: the list of dimensions, outermost first. *)
Definition shape := list nat.

(** The arguments an [assert cond, args] statement attaches to its error. *)
Inductive assert_args :=
| args_float (x : float)
| args_shape (s : shape)
| args_shapes (s1 s2 s3 s4 : shape).

Inductive exn :=
| AssertionError (args : assert_args)
| IndexError
| OSError (path : string).

(** One entry per call that leaves [model.py]. *)
Inductive call :=
| call_FeatureNormalizer
| call_encoder
| call_forward_chunk
| call_add_sos_eos (sos eos ignore_id : Z)
| call_reverse_pad_list
| call_left_decoder
| call_right_decoder
| call_criterion_att
| call_ctc
| call_ctc_softmax
| call_th_accuracy.

Definition is_criterion_call (c : call) : bool :=
  match c with call_criterion_att => true | _ => false end.

Definition is_right_decoder_call (c : call) : bool :=
  match c with call_right_decoder => true | _ => false end.

Definition is_ctc_call (c : call) : bool :=
  match c with call_ctc => true | _ => false end.

Definition is_add_sos_eos_call (c : call) : bool :=
  match c with call_add_sos_eos _ _ _ => true | _ => false end.

Definition M (A : Type) : Type := (list call * (exn + A))%type.

Definition ret {A} (a : A) : M A := ([], inr a).

Definition raise {A} (e : exn) : M A := ([], inl e).

Definition bind {A B} (m : M A) (k : A -> M B) : M B :=
  match m with
  | (t, inl e) => (t, inl e)
  | (t, inr a) => let (t', r) := k a in (t ++ t', r)
  end.

(** A call to a collaborator that returns [v]. *)
Definition invoke {A} (c : call) (v : A) : M A := ([c], inr v).

(** A call to a collaborator that may raise. *)
Definition invoke_fallible {A} (c : call) (r : exn + A) : M A := ([c], r).

(** [assert cond, args] *)
Definition assert_ (cond : bool) (args : assert_args) : M unit :=
  if cond then ret tt else raise (AssertionError args).

Definition trace {A} (m : M A) : list call := fst m.
Definition outcome {A} (m : M A) : exn + A := snd m.

Declare Scope py_scope.
Delimit Scope py_scope with py.
Notation "x <- m ;; k" := (bind m (fun x => k))
  (at level 61, m at next level, right associativity) : py_scope.
Notation "' pat <- m ;; k" := (bind m (fun x => match x with pat => k end))
  (at level 61, pat pattern, m at next level, right associativity) : py_scope.

Open Scope float_scope.
Open Scope py_scope.

(** [float(n)] for a Python int. *)
Definition float_of_int (n : Z) : float :=
  SF2Prim (binary_normalize prec emax n 0 false).

(** ** Scalar floating tensors

    The operations are those of [SpecFloat], which are parameterized by
    the format: 24 bits and exponent 128 for binary32, 53 bits and exponent
    1024 for binary64. *)

Inductive dtype := float32 | float64.

Definition prec_of (d : dtype) : Z :=
  match d with float32 => 24 | float64 => 53 end.

Definition emax_of (d : dtype) : Z :=
  match d with float32 => 128 | float64 => 1024 end.

(** [torch.promote_types] *)
Definition promote_types (d1 d2 : dtype) : dtype :=
  match d1, d2 with
  | float32, float32 => float32
  | _, _ => float64
  end.

(** Conversion of a number to the dtype [d], rounding to nearest, ties to
    even. *)
Definition round_to (d : dtype) (x : spec_float) : spec_float :=
  match x with
  | S754_finite s m e => binary_round (prec_of d) (emax_of d) s m e
  | _ => x
  end.

(** A 0-dim floating tensor. *)
Record Scalar := {
  dtype_of : dtype;
  value : spec_float;
}.

(** The number is one the dtype can hold. *)
Definition valid_scalar (t : Scalar) : bool :=
  SpecFloat.valid_binary (prec_of (dtype_of t)) (emax_of (dtype_of t)) (value t).

(** [t.to(d)] *)
Definition to_dtype (d : dtype) (t : Scalar) : Scalar :=
  {| dtype_of := d; value := round_to d (value t) |}.

(** [t * x] and [x * t] for a Python float [x]: the result has the dtype
    of [t], and [x] is rounded to it before the product is taken. *)
Definition smul (t : Scalar) (x : float) : Scalar :=
  let d := dtype_of t in
  {| dtype_of := d;
     value := SFmul (prec_of d) (emax_of d) (value t) (round_to d (Prim2SF x)) |}.

(** [a + b] for two 0-dim tensors: both are brought to the promoted
    dtype. *)
Definition sadd (a b : Scalar) : Scalar :=
  let d := promote_types (dtype_of a) (dtype_of b) in
  {| dtype_of := d;
     value := SFadd (prec_of d) (emax_of d)
                (round_to d (value a)) (round_to d (value b)) |}.

(** [a == b] for two 0-dim tensors. *)
Definition seqb (a b : Scalar) : bool :=
  let d := promote_types (dtype_of a) (dtype_of b) in
  SFeqb (round_to d (value a)) (round_to d (value b)).

(** A loss as a collaborator returns it: a scalar tensor, which holds a
    number of its dtype. *)
Record Loss := {
  loss_tensor :> Scalar;
  loss_valid : valid_scalar loss_tensor = true;
}.

(** [l] is [x], except that where [x] is [-0.0], [l] may be [+0.0]. *)
Definition equal_up_to_zero_sign (l x : Scalar) : Prop :=
  l = x
  \/ (value x = S754_zero true
      /\ l = {| dtype_of := dtype_of x; value := S754_zero false |}).

(** The number is neither an infinity nor NaN. *)
Definition is_finite_scalar (t : Scalar) : bool :=
  match value t with
  | S754_zero _ | S754_finite _ _ _ => true
  | S754_infinity _ | S754_nan => false
  end.

(** ** The torch interface *)

Class Torch := {
  (** [torch.get_default_dtype()] *)
  default_dtype : dtype;
  Tensor : Type;
  (** [t.shape] *)
  tshape : Tensor -> shape;
  (** [torch.tensor(x)], a 0-dim tensor *)
  tensor : float -> Tensor;
  (** [t.squeeze(d)] *)
  squeeze : Tensor -> nat -> Tensor;
  (** [t.sum(d)] *)
  tsum : Tensor -> nat -> Tensor;
  (** [t + n] for a Python int [n] *)
  tadd_int : Tensor -> Z -> Tensor;
  (** [t.view(dims)] *)
  view : Tensor -> list Z -> Tensor;
}.

(** [t.dim()] *)
Definition dim `{Torch} (t : Tensor) : nat := List.length (tshape t).

(** [t.shape[0]]: indexing an empty [torch.Size] raises [IndexError]. *)
Definition shape0 `{Torch} (t : Tensor) : M nat :=
  match tshape t with
  | [] => raise IndexError
  | n :: _ => ret n
  end.

(** [torch.tensor(x)] for a Python float [x], as a scalar: a 0-dim tensor of
    the default dtype. *)
Definition scalar_tensor `{Torch} (x : float) : Scalar :=
  {| dtype_of := default_dtype; value := round_to default_dtype (Prim2SF x) |}.

Section Model.
Context `{Torch}.

(** ** Collaborators *)

(** [ConformerEncoder]: the two optional arguments of [forward] are
    [decoding_chunk_size] and [num_decoding_left_chunks]. *)
Record ConformerEncoder := {
  encoder_forward : Tensor -> Tensor -> option Z -> option Z -> Tensor * Tensor;
  forward_chunk : Tensor -> Z -> Z -> Tensor -> Tensor -> Tensor * Tensor * Tensor;
  output_size : Z;
}.

(** The two directions of [BiTransformerDecoder]; each maps
    (memory, memory_mask, ys_in, ys_in_lens) to logits, the left one also
    returning the third component of the decoder's result. *)
Record BiTransformerDecoder := {
  left_decoder : Tensor -> Tensor -> Tensor -> Tensor -> Tensor * Tensor;
  right_decoder : Tensor -> Tensor -> Tensor -> Tensor -> Tensor;
}.

Record CTCLoss := {
  ctc_forward : Tensor -> Tensor -> Tensor -> Tensor -> Loss;
  ctc_softmax : Tensor -> Tensor;
}.

Record Configs (EncoderConf DecoderConf : Type) := {
  mean_istd_path : string;
  encoder_conf : EncoderConf;
  decoder_conf : DecoderConf;
}.

(** Everything [model.py] imports. *)
Record Env := {
  EncoderConf : Type;
  DecoderConf : Type;
  GlobalCMVN : Type;
  (** lines 31-33: [FeatureNormalizer(path)] and [GlobalCMVN(mean, istd)] *)
  load_global_cmvn : string -> exn + GlobalCMVN;
  new_ConformerEncoder :
    Z -> GlobalCMVN -> bool -> bool -> bool -> EncoderConf -> ConformerEncoder;
  new_BiTransformerDecoder : Z -> Z -> DecoderConf -> BiTransformerDecoder;
  new_CTCLoss : Z -> Z -> CTCLoss;
  (** size, padding_idx, smoothing, normalize_length *)
  new_LabelSmoothingLoss : Z -> Z -> float -> bool -> Tensor -> Tensor -> Loss;
  IGNORE_ID : Z;
  add_sos_eos : Tensor -> Z -> Z -> Z -> Tensor * Tensor;
  reverse_pad_list : Tensor -> Tensor -> float -> Tensor;
  th_accuracy : Tensor -> Tensor -> Z -> float;
}.

Variable env : Env.

(** ** [ConformerModel] *)

Record ConformerModel := {
  input_dim : Z;
  encoder : ConformerEncoder;
  decoder : BiTransformerDecoder;
  ctc : CTCLoss;
  sos : Z;
  eos : Z;
  vocab_size : Z;
  ignore_id : Z;
  ctc_weight : float;
  reverse_weight : float;
  criterion_att : Tensor -> Tensor -> Loss;
}.

(** [ConformerModel.__init__] *)
Definition __init__
    (configs : Configs (EncoderConf env) (DecoderConf env))
    (input_dim vocab_size : Z) (ctc_weight : float) (ignore_id : Z)
    (reverse_weight lsm_weight : float)
    (length_normalized_loss use_dynamic_chunk use_dynamic_left_chunk causal : bool)
  : M ConformerModel :=
  _ <- assert_ ((0 <=? ctc_weight) && (ctc_weight <=? 1)) (args_float ctc_weight) ;;
  global_cmvn <- invoke_fallible call_FeatureNormalizer
                   (load_global_cmvn env (mean_istd_path configs)) ;;
  let encoder := new_ConformerEncoder env input_dim global_cmvn use_dynamic_chunk
                   use_dynamic_left_chunk causal (encoder_conf configs) in
  let decoder := new_BiTransformerDecoder env vocab_size (output_size encoder)
                   (decoder_conf configs) in
  let ctc := new_CTCLoss env vocab_size (output_size encoder) in
  ret {| input_dim := input_dim;
         encoder := encoder;
         decoder := decoder;
         ctc := ctc;
         sos := vocab_size - 1;
         eos := vocab_size - 1;
         vocab_size := vocab_size;
         ignore_id := ignore_id;
         ctc_weight := ctc_weight;
         reverse_weight := reverse_weight;
         criterion_att := new_LabelSmoothingLoss env vocab_size ignore_id lsm_weight
                            length_normalized_loss |}.

(** Modelled from the spec: [BiTransformerDecoder.forward]; [decoder.py] is
    not among the sources.  Section 4.5: "Computes forward-direction decoding
    always; computes reverse-direction decoding only when reverse_weight > 0
    (else returns a zero/placeholder reverse result to avoid wasted
    computation)."  Both directions take the same encoder output and mask. *)
Definition decoder_forward (d : BiTransformerDecoder)
    (memory memory_mask ys_in_pad ys_in_lens r_ys_in_pad : Tensor)
    (reverse_weight : float) : M (Tensor * Tensor * Tensor) :=
  '(l_x, olens) <- invoke call_left_decoder
                     (left_decoder d memory memory_mask ys_in_pad ys_in_lens) ;;
  r_x <- (if 0 <? reverse_weight
          then invoke call_right_decoder
                 (right_decoder d memory memory_mask r_ys_in_pad ys_in_lens)
          else ret (tensor 0)) ;;
  ret (l_x, r_x, olens).

(** [ConformerModel._calc_att_loss].  The source's last parameter,
    [reverse_weight], is accepted and never read: the body uses
    [self.reverse_weight] throughout.  It is named [reverse_weight_arg] here
    to keep it apart from the field. *)
Definition _calc_att_loss (self : ConformerModel)
    (encoder_out encoder_mask ys_pad ys_pad_lens : Tensor)
    (reverse_weight_arg : float) : M (Scalar * float) :=
  '(ys_in_pad, ys_out_pad) <-
     invoke (call_add_sos_eos (sos self) (eos self) (ignore_id self))
       (add_sos_eos env ys_pad (sos self) (eos self) (ignore_id self)) ;;
  let ys_in_lens := tadd_int ys_pad_lens 1 in
  r_ys_pad <- invoke call_reverse_pad_list
                (reverse_pad_list env ys_pad ys_pad_lens
                   (float_of_int (ignore_id self))) ;;
  '(r_ys_in_pad, r_ys_out_pad) <-
     invoke (call_add_sos_eos (sos self) (eos self) (ignore_id self))
       (add_sos_eos env r_ys_pad (sos self) (eos self) (ignore_id self)) ;;
  (* 1. Forward decoder *)
  '(decoder_out, r_decoder_out, _) <-
     decoder_forward (decoder self) encoder_out encoder_mask ys_in_pad
       ys_in_lens r_ys_in_pad (reverse_weight self) ;;
  (* 2. Compute attention loss *)
  loss_att <- invoke call_criterion_att
                (loss_tensor (criterion_att self decoder_out ys_out_pad)) ;;
  r_loss_att <- (if 0 <? reverse_weight self
                 then invoke call_criterion_att
                        (loss_tensor
                           (criterion_att self r_decoder_out r_ys_out_pad))
                 else ret (scalar_tensor 0)) ;;
  let loss_att := sadd (smul loss_att (1 - reverse_weight self))
                       (smul r_loss_att (reverse_weight self)) in
  acc_att <- invoke call_th_accuracy
               (th_accuracy env (view decoder_out [(-1)%Z; vocab_size self])
                  ys_out_pad (ignore_id self)) ;;
  ret (loss_att, acc_att).

(** The dict [{"loss": ..., "loss_att": ..., "loss_ctc": ...}]; [None] is
    Python's [None]. *)
Record LossBundle := {
  loss : option Scalar;
  loss_att : option Scalar;
  loss_ctc : option Scalar;
}.

(** [speech.shape[0] == speech_lengths.shape[0] == text.shape[0] ==
    text_lengths.shape[0]]: a chained comparison evaluates its operands left
    to right, each once, and stops at the first comparison that fails. *)
Definition batch_size_unified
    (speech speech_lengths text text_lengths : Tensor) : M bool :=
  a <- shape0 speech ;;
  b <- shape0 speech_lengths ;;
  if negb (a =? b)%nat then ret false else
  c <- shape0 text ;;
  if negb (b =? c)%nat then ret false else
  d <- shape0 text_lengths ;;
  ret (c =? d)%nat.

(** [ConformerModel.forward] *)
Definition forward (self : ConformerModel)
    (speech speech_lengths text text_lengths : Tensor) : M LossBundle :=
  _ <- assert_ (dim text_lengths =? 1)%nat (args_shape (tshape text_lengths)) ;;
  (* Check that batch_size is unified *)
  unified <- batch_size_unified speech speech_lengths text text_lengths ;;
  _ <- assert_ unified
         (args_shapes (tshape speech) (tshape speech_lengths) (tshape text)
            (tshape text_lengths)) ;;
  (* 1. Encoder *)
  '(encoder_out, encoder_mask) <-
     invoke call_encoder
       (encoder_forward (encoder self) speech speech_lengths None None) ;;
  let encoder_out_lens := tsum (squeeze encoder_mask 1) 1 in
  (* 2a. Attention-decoder branch *)
  loss_att <- (if negb (ctc_weight self =? 1)
               then '(loss_att, acc_att) <-
                      _calc_att_loss self encoder_out encoder_mask text
                        text_lengths (reverse_weight self) ;;
                    ret (Some loss_att)
               else ret None) ;;
  (* 2b. CTC branch *)
  loss_ctc <- (if negb (ctc_weight self =? 0)
               then loss_ctc <- invoke call_ctc
                                  (loss_tensor
                                     (ctc_forward (ctc self) encoder_out
                                        encoder_out_lens text text_lengths)) ;;
                    ret (Some loss_ctc)
               else ret None) ;;
  let loss :=
    match loss_ctc, loss_att with
    | None, _ => loss_att
    | Some c, None => Some c
    | Some c, Some a =>
        Some (sadd (smul c (ctc_weight self)) (smul a (1 - ctc_weight self)))
    end in
  ret {| loss := loss; loss_att := loss_att; loss_ctc := loss_ctc |}.

(** [ConformerModel.get_encoder_out] *)
Definition get_encoder_out (self : ConformerModel)
    (speech speech_lengths : Tensor) : M Tensor :=
  '(encoder_out, _) <-
     invoke call_encoder
       (encoder_forward (encoder self) speech speech_lengths
          (Some (-1)%Z) (Some (-1)%Z)) ;;
  ctc_probs <- invoke call_ctc_softmax (ctc_softmax (ctc self) encoder_out) ;;
  ret ctc_probs.

(** [ConformerModel.get_encoder_out_chunk]; the default of both caches is
    [torch.zeros([0, 0, 0, 0])], passed here by the caller. *)
Definition get_encoder_out_chunk (self : ConformerModel)
    (speech : Tensor) (offset required_cache_size : Z)
    (att_cache cnn_cache : Tensor) : M (Tensor * Tensor * Tensor) :=
  '(xs, att_cache, cnn_cache) <-
     invoke call_forward_chunk
       (forward_chunk (encoder self) speech offset required_cache_size
          att_cache cnn_cache) ;;
  ctc_probs <- invoke call_ctc_softmax (ctc_softmax (ctc self) xs) ;;
  ret (ctc_probs, att_cache, cnn_cache).

(** [ConformerModelOnline] *)
Definition ConformerModelOnline
    (configs : Configs (EncoderConf env) (DecoderConf env))
    (input_dim vocab_size : Z) (ctc_weight : float) (ignore_id : Z)
    (reverse_weight lsm_weight : float) (length_normalized_loss : bool)
  : M ConformerModel :=
  __init__ configs input_dim vocab_size ctc_weight ignore_id reverse_weight
    lsm_weight length_normalized_loss true false true.

(** [ConformerModelOffline]: the three flags keep their defaults. *)
Definition ConformerModelOffline
    (configs : Configs (EncoderConf env) (DecoderConf env))
    (input_dim vocab_size : Z) (ctc_weight : float) (ignore_id : Z)
    (reverse_weight lsm_weight : float) (length_normalized_loss : bool)
  : M ConformerModel :=
  __init__ configs input_dim vocab_size ctc_weight ignore_id reverse_weight
    lsm_weight length_normalized_loss false false false.

End Model.

Arguments Configs : clear implicits.

(** ** Values the attention branch computes

    The intermediate values of [_calc_att_loss], named after the source's
    local variables, for the statements below. *)
Section AttentionValues.
Context `{Torch} (env : Env) (self : ConformerModel).
Variables encoder_out encoder_mask ys_pad ys_pad_lens : Tensor.

Definition ys_in_out_pad : Tensor * Tensor :=
  add_sos_eos env ys_pad (sos self) (eos self) (ignore_id self).

Definition ys_in_lens : Tensor := tadd_int ys_pad_lens 1.

Definition r_ys_pad : Tensor :=
  reverse_pad_list env ys_pad ys_pad_lens (float_of_int (ignore_id self)).

Definition r_ys_in_out_pad : Tensor * Tensor :=
  add_sos_eos env r_ys_pad (sos self) (eos self) (ignore_id self).

Definition decoder_out : Tensor :=
  fst (left_decoder (decoder self) encoder_out encoder_mask
         (fst ys_in_out_pad) ys_in_lens).

Definition r_decoder_out : Tensor :=
  right_decoder (decoder self) encoder_out encoder_mask
    (fst r_ys_in_out_pad) ys_in_lens.

(** The label-smoothed loss of the forward direction. *)
Definition forward_loss : Loss :=
  criterion_att self decoder_out (snd ys_in_out_pad).

(** The label-smoothed loss of the reverse direction. *)
Definition reverse_loss : Loss :=
  criterion_att self r_decoder_out (snd r_ys_in_out_pad).

Definition acc_att : float :=
  th_accuracy env (view decoder_out [(-1)%Z; vocab_size self])
    (snd ys_in_out_pad) (ignore_id self).

(** The reverse loss as [_calc_att_loss] takes it: computed when
    [reverse_weight > 0.0], the constant [torch.tensor(0.0)] otherwise. *)
Definition r_loss_att : Scalar :=
  if 0 <? reverse_weight self then loss_tensor reverse_loss else scalar_tensor 0.

(** The attention loss [_calc_att_loss] returns:
    [loss_att * (1 - self.reverse_weight) + r_loss_att * self.reverse_weight]. *)
Definition attention_loss : Scalar :=
  sadd (smul forward_loss (1 - reverse_weight self))
       (smul r_loss_att (reverse_weight self)).

(** The collaborators one attention-loss computation calls, in order. *)
Definition attention_calls : list call :=
  [call_add_sos_eos (sos self) (eos self) (ignore_id self);
   call_reverse_pad_list;
   call_add_sos_eos (sos self) (eos self) (ignore_id self);
   call_left_decoder]
  ++ (if 0 <? reverse_weight self
      then [call_right_decoder; call_criterion_att; call_criterion_att]
      else [call_criterion_att])
  ++ [call_th_accuracy].

End AttentionValues.

(** The values [forward] hands to its two branches. *)
Section ForwardValues.
Context `{Torch} (self : ConformerModel).
Variables speech speech_lengths text text_lengths : Tensor.

Definition encoder_result : Tensor * Tensor :=
  encoder_forward (encoder self) speech speech_lengths None None.

Definition encoder_out_lens : Tensor :=
  tsum (squeeze (snd encoder_result) 1) 1.

(** The loss of the CTC head. *)
Definition ctc_loss : Loss :=
  ctc_forward (ctc self) (fst encoder_result) encoder_out_lens text text_lengths.

End ForwardValues.

(** The total loss [forward] forms from the two optional branch losses
    (lines 94-99). *)
Definition blend (w : float) (loss_ctc loss_att : option Scalar)
  : option Scalar :=
  match loss_ctc, loss_att with
  | None, _ => loss_att
  | Some c, None => Some c
  | Some c, Some a => Some (sadd (smul c w) (smul a (1 - w)))
  end.

(** ** What the shape checks of [forward] decide *)

(** The batch dimension of a tensor, when it has one. *)
Definition batch_dim `{Torch} (t : Tensor) : option nat := hd_error (tshape t).

(** All four inputs have a batch dimension and it is the same. *)
Definition same_batch `{Torch} (speech speech_lengths text text_lengths : Tensor)
  : bool :=
  match batch_dim speech, batch_dim speech_lengths,
        batch_dim text, batch_dim text_lengths with
  | Some a, Some b, Some c, Some d => (a =? b)%nat && (b =? c)%nat && (c =? d)%nat
  | _, _, _, _ => false
  end.


(** The inputs [forward] accepts: [text_lengths] is a vector and the batch
    dimensions agree. *)
Definition inputs_ok `{Torch} (speech speech_lengths text text_lengths : Tensor)
  : bool :=
  (dim text_lengths =? 1)%nat && same_batch speech speech_lengths text text_lengths.

(** ** A concrete instance

    Tensors reduced to a shape and one number, losses in [float32]; enough
    to run [forward]. *)
Module Demo.

Definition drop_dim (d : nat) (s : shape) : shape := firstn d s ++ skipn (S d) s.

#[export] Instance demo_torch : Torch := {|
  default_dtype := float32;
  Tensor := shape * float;
  tshape := fst;
  tensor := fun x => ([], x);
  squeeze := fun t d => if (nth d (fst t) 0 =? 1)%nat
                        then (drop_dim d (fst t), snd t) else t;
  tsum := fun t d => (drop_dim d (fst t), snd t);
  tadd_int := fun t n => (fst t, snd t + float_of_int n);
  view := fun t dims => (map Z.to_nat dims, snd t);
|}.

(** The [float32] scalar nearest to a Python float. *)
Definition f32 (x : float) : Scalar :=
  {| dtype_of := float32; value := round_to float32 (Prim2SF x) |}.

(** The [float64] scalar holding a Python float. *)
Definition f64 (x : float) : Scalar :=
  {| dtype_of := float64; value := Prim2SF x |}.

Definition loss_0_25 : Loss := {| loss_tensor := f32 0.25; loss_valid := eq_refl |}.
Definition loss_0_75 : Loss := {| loss_tensor := f32 0.75; loss_valid := eq_refl |}.
Definition loss_1_5 : Loss := {| loss_tensor := f32 1.5; loss_valid := eq_refl |}.

Definition demo_encoder : ConformerEncoder := {|
  encoder_forward := fun speech _ _ _ =>
    let B := nth 0 (fst speech) 0%nat in
    let T := Nat.div (nth 1 (fst speech) 0%nat) 4 in
    (([B; T; 256%nat], 0.5), ([B; 1%nat; T], 1));
  forward_chunk := fun speech _ _ att cnn => (speech, att, cnn);
  output_size := 256;
|}.

(** The left decoder's logits carry the number 0.75, the right decoder's
    1.5, so that the two directions can be told apart. *)
Definition demo_decoder : BiTransformerDecoder := {|
  left_decoder := fun memory _ ys_in ys_in_lens =>
    ((fst ys_in ++ [100%nat], 0.75), ys_in_lens);
  right_decoder := fun memory _ r_ys_in _ => (fst r_ys_in ++ [100%nat], 1.5);
|}.

Definition demo_ctc : CTCLoss := {|
  ctc_forward := fun _ _ _ _ => loss_0_25;
  ctc_softmax := fun t => t;
|}.

(** The criterion answers 1.5 on the right decoder's logits and 0.75 on
    any other. *)
Definition demo_criterion (logits target : Tensor) : Loss :=
  if snd logits =? 1.5 then loss_1_5 else loss_0_75.

Definition demo_env : Env := {|
  EncoderConf := unit;
  DecoderConf := unit;
  GlobalCMVN := unit;
  load_global_cmvn := fun path =>
    if String.eqb path "" then inl (OSError path) else inr tt;
  new_ConformerEncoder := fun _ _ _ _ _ _ => demo_encoder;
  new_BiTransformerDecoder := fun _ _ _ => demo_decoder;
  new_CTCLoss := fun _ _ => demo_ctc;
  new_LabelSmoothingLoss := fun _ _ _ _ => demo_criterion;
  IGNORE_ID := (-1);
  add_sos_eos := fun ys _ _ _ =>
    let s := [nth 0 (fst ys) 0%nat; S (nth 1 (fst ys) 0%nat)] in ((s, 0), (s, 0));
  reverse_pad_list := fun ys _ _ => ys;
  th_accuracy := fun _ _ _ => 0.5;
|}.

Definition demo_configs : Configs unit unit :=
  {| mean_istd_path := "mean_istd.json"; encoder_conf := tt; decoder_conf := tt |}.

(** A model with the given weights, as [__init__] builds it for
    [vocab_size = 100]. *)
Definition demo_model (ctc_weight reverse_weight : float) : ConformerModel := {|
  input_dim := 80;
  encoder := demo_encoder;
  decoder := demo_decoder;
  ctc := demo_ctc;
  sos := 99;
  eos := 99;
  vocab_size := 100;
  ignore_id := (-1);
  ctc_weight := ctc_weight;
  reverse_weight := reverse_weight;
  criterion_att := demo_criterion;
|}.

(** A batch of two utterances of 80-dim features, padded to 5 frames and
    3 labels. *)
Definition speech : Tensor := ([2; 5; 80]%nat, 0).
Definition speech_lengths : Tensor := ([2]%nat, 0).
Definition text : Tensor := ([2; 3]%nat, 0).
Definition text_lengths : Tensor := ([2]%nat, 0).



End Demo.

Unset Implicit Arguments.

(** ** Further observations on [forward] *)

Definition is_encoder_call (c : call) : bool :=
  match c with call_encoder => true | _ => false end.

Definition is_th_accuracy_call (c : call) : bool :=
  match c with call_th_accuracy => true | _ => false end.

(** The shapes on which indexing [shape[0]] fails inside the chained
    comparison: [text_lengths] has passed the rank assertion and, reading
    left to right, the comparison reaches a tensor of rank 0 before it
    reaches two batch sizes that differ. *)
Definition reaches_rank0 `{Torch}
    (speech speech_lengths text text_lengths : Tensor) : bool :=
  (dim text_lengths =? 1)%nat
  && match tshape speech, tshape speech_lengths, tshape text with
     | [], _, _ => true
     | _ :: _, [], _ => true
     | a :: _, b :: _, [] => (a =? b)%nat
     | _ :: _, _ :: _, _ :: _ => false
     end.

(** The environment with another accuracy function in place of
    [th_accuracy]. *)
Definition set_th_accuracy `{Torch} (env : Env)
    (f : Tensor -> Tensor -> Z -> float) : Env :=
  {| EncoderConf := EncoderConf env;
     DecoderConf := DecoderConf env;
     GlobalCMVN := GlobalCMVN env;
     load_global_cmvn := load_global_cmvn env;
     new_ConformerEncoder := new_ConformerEncoder env;
     new_BiTransformerDecoder := new_BiTransformerDecoder env;
     new_CTCLoss := new_CTCLoss env;
     new_LabelSmoothingLoss := new_LabelSmoothingLoss env;
     IGNORE_ID := IGNORE_ID env;
     add_sos_eos := add_sos_eos env;
     reverse_pad_list := reverse_pad_list env;
     th_accuracy := f |}.

(** * Facts about Python floats

    The weights are binary64 numbers; the facts are proved from the
    specification [Prim2SF] of the primitive operations. *)
Section FloatFacts.

Lemma SFeqb_zero_inv (x : spec_float) (s : bool) :
  SFeqb x (S754_zero s) = true -> exists s', x = S754_zero s'.
Proof.
  destruct x as [s'| [|] | | [|] m e]; cbn; try discriminate.
  intros _. now exists s'.
Qed.

(** [x == 0.0] holds of the two zeros only. *)
Lemma float_eqb_zero_inv (x : float) :
  (x =? 0) = true -> x = 0 \/ x = -0.
Proof.
  rewrite FloatAxioms.eqb_spec. change (Prim2SF 0) with (S754_zero false).
  intros Hz. apply SFeqb_zero_inv in Hz as [s' Hs'].
  rewrite <- (SF2Prim_Prim2SF x), Hs'.
  destruct s'; [right | left]; reflexivity.
Qed.

Lemma float_ltb_zero_neq (w : float) :
  (0 <? w) = true -> (w =? 0) = false.
Proof.
  rewrite FloatAxioms.ltb_spec, FloatAxioms.eqb_spec. change (Prim2SF 0) with (S754_zero false).
  destruct (Prim2SF w) as [s| [|] | | [|] m e]; cbn; congruence.
Qed.

Lemma float_ltb_neq (w v : float) :
  (w <? v) = true -> (w =? v) = false.
Proof.
  rewrite FloatAxioms.ltb_spec, FloatAxioms.eqb_spec. unfold SFltb, SFeqb.
  destruct (SFcompare (Prim2SF w) (Prim2SF v)) as [[| |]|]; congruence.
Qed.

Lemma float_eqb_zero_neq_one (w : float) :
  (w =? 0) = true -> (w =? 1) = false.
Proof.
  intros [-> | ->]%float_eqb_zero_inv; reflexivity.
Qed.

Lemma float_eqb_one_neq_zero (w : float) :
  (w =? 1) = true -> (w =? 0) = false.
Proof.
  intros H1. destruct (w =? 0) eqn:H0; [|reflexivity].
  apply float_eqb_zero_neq_one in H0. congruence.
Qed.

Lemma float_eqb_zero_not_pos (w : float) :
  (w =? 0) = true -> (0 <? w) = false.
Proof.
  intros [-> | ->]%float_eqb_zero_inv; reflexivity.
Qed.

Lemma float_leb_zero_cases (w : float) :
  (0 <=? w) = true -> (0 <? w) = true \/ (w =? 0) = true.
Proof.
  rewrite FloatAxioms.leb_spec, FloatAxioms.ltb_spec, FloatAxioms.eqb_spec.
  change (Prim2SF 0) with (S754_zero false).
  destruct (Prim2SF w) as [s| [|] | | [|] m e]; cbn; auto.
Qed.

Lemma float_leb_cases (w v : float) :
  (w <=? v) = true -> (w <? v) = true \/ (w =? v) = true.
Proof.
  rewrite FloatAxioms.leb_spec, FloatAxioms.ltb_spec, FloatAxioms.eqb_spec.
  unfold SFleb, SFltb, SFeqb.
  destruct (SFcompare (Prim2SF w) (Prim2SF v)) as [[| |]|]; auto.
Qed.

(** The weights [__init__] accepts fall in exactly three regimes. *)
Lemma float_unit_interval_cases (w : float) :
  (0 <=? w) && (w <=? 1) = true ->
  (w =? 1) = true \/ (w =? 0) = true \/ ((0 <? w) = true /\ (w <? 1) = true).
Proof.
  intros [H0 H1]%andb_prop.
  destruct (float_leb_cases _ _ H1) as [Hlt1 | Heq1]; [|now left].
  destruct (float_leb_zero_cases _ H0) as [Hlt0 | Heq0]; [|now right; left].
  right; right. now split.
Qed.

Lemma float_eqb_one_inv (x : float) : (x =? 1) = true -> x = 1.
Proof.
  rewrite FloatAxioms.eqb_spec.
  change (Prim2SF 1) with (S754_finite false 4503599627370496 (-52)).
  intros Hx. apply Prim2SF_inj.
  change (Prim2SF 1) with (S754_finite false 4503599627370496 (-52)).
  revert Hx.
  destruct (Prim2SF x) as [s|[|]| |[|] m e]; try discriminate.
  unfold SFeqb. cbn [SFcompare].
  destruct (Z.compare_spec e (-52)) as [-> | |]; try discriminate.
  destruct (Pos.compare_cont Eq m 4503599627370496) eqn:Hm; try discriminate.
  intros _. apply Pos.compare_eq in Hm. now subst m.
Qed.

End FloatFacts.

(** * Facts about scalar tensors

    Proved for the two formats from the definitions of [SpecFloat]. *)
Section ScalarFacts.

(** A number of the format is left as it is by rounding to the format. *)
Lemma binary_round_valid (p e : Z) (s : bool) (m : positive) (ex : Z) :
  SpecFloat.bounded p e m ex = true ->
  binary_round p e s m ex = S754_finite s m ex.
Proof.
  unfold SpecFloat.bounded, canonical_mantissa.
  intros [Hcan Hle]%andb_prop. apply Z.eqb_eq in Hcan.
  unfold binary_round, shl_align. rewrite Hcan, Z.sub_diag.
  unfold binary_round_aux, shr_fexp. cbn [Zdigits2].
  rewrite Hcan, Z.sub_diag.
  cbn [shr shr_record_of_loc shr_m loc_of_shr_record round_nearest_even Zdigits2].
  rewrite Hcan, Z.sub_diag. cbn [shr shr_record_of_loc shr_m].
  now rewrite Hle.
Qed.

Lemma round_to_valid (d : dtype) (x : spec_float) :
  SpecFloat.valid_binary (prec_of d) (emax_of d) x = true -> round_to d x = x.
Proof.
  destruct x as [s|s| |s m e]; cbn [round_to SpecFloat.valid_binary];
    try reflexivity.
  apply binary_round_valid.
Qed.

Lemma to_dtype_same (l : Loss) : to_dtype (dtype_of l) l = l.
Proof.
  destruct l as [[d v] Hv]. unfold to_dtype, valid_scalar in *.
  cbn [loss_tensor dtype_of value] in *.
  now rewrite (round_to_valid d v Hv).
Qed.

(** The product of a number of the format with 1 is the number: the
    mantissa comes back from a shift by 23 (or 52) bits with nothing
    lost. *)
Lemma SFmul_one_float32 (sx : bool) (mx : positive) (ex : Z) :
  SpecFloat.bounded 24 128 mx ex = true ->
  binary_round_aux 24 128 sx (Zpos (8388608 * mx)) (ex + -23) loc_Exact
  = S754_finite sx mx ex.
Proof.
  unfold SpecFloat.bounded, canonical_mantissa.
  intros [Hcan Hle]%andb_prop. apply Z.eqb_eq in Hcan.
  unfold binary_round_aux, shr_fexp.
  assert (Hdig : (Zdigits2 (Zpos (8388608 * mx)) + (ex + -23)
                  = Zpos (digits2_pos mx) + ex)%Z).
  { cbn [Pos.mul Zdigits2 digits2_pos]. rewrite !Pos2Z.inj_succ. lia. }
  rewrite Hdig, Hcan.
  replace (ex - (ex + -23))%Z with 23%Z by lia.
  cbn [Pos.mul shr shr_record_of_loc iter_pos shr_1 orb].
  cbn [shr_m loc_of_shr_record round_nearest_even Zdigits2].
  replace (ex + -23 + 23)%Z with ex by lia.
  rewrite Hcan, Z.sub_diag. cbn [shr shr_record_of_loc shr_m].
  now rewrite Hle.
Qed.

Lemma SFmul_one_float64 (sx : bool) (mx : positive) (ex : Z) :
  SpecFloat.bounded 53 1024 mx ex = true ->
  binary_round_aux 53 1024 sx (Zpos (4503599627370496 * mx)) (ex + -52) loc_Exact
  = S754_finite sx mx ex.
Proof.
  unfold SpecFloat.bounded, canonical_mantissa.
  intros [Hcan Hle]%andb_prop. apply Z.eqb_eq in Hcan.
  unfold binary_round_aux, shr_fexp.
  assert (Hdig : (Zdigits2 (Zpos (4503599627370496 * mx)) + (ex + -52)
                  = Zpos (digits2_pos mx) + ex)%Z).
  { cbn [Pos.mul Zdigits2 digits2_pos]. rewrite !Pos2Z.inj_succ. lia. }
  rewrite Hdig, Hcan.
  replace (ex - (ex + -52))%Z with 52%Z by lia.
  cbn [Pos.mul shr shr_record_of_loc iter_pos shr_1 orb].
  cbn [shr_m loc_of_shr_record round_nearest_even Zdigits2].
  replace (ex + -52 + 52)%Z with ex by lia.
  rewrite Hcan, Z.sub_diag. cbn [shr shr_record_of_loc shr_m].
  now rewrite Hle.
Qed.

Lemma SFmul_one (d : dtype) (x : spec_float) :
  SpecFloat.valid_binary (prec_of d) (emax_of d) x = true ->
  SFmul (prec_of d) (emax_of d) x (round_to d (Prim2SF 1)) = x.
Proof.
  destruct d.
  - change (round_to float32 (Prim2SF 1))
      with (S754_finite false 8388608 (-23)).
    destruct x as [s|s| |s m e]; cbn [SFmul SpecFloat.valid_binary prec_of emax_of];
      rewrite ?xorb_false_r; try reflexivity.
    intros Hb. rewrite Pos.mul_comm. now apply SFmul_one_float32.
  - change (round_to float64 (Prim2SF 1))
      with (S754_finite false 4503599627370496 (-52)).
    destruct x as [s|s| |s m e]; cbn [SFmul SpecFloat.valid_binary prec_of emax_of];
      rewrite ?xorb_false_r; try reflexivity.
    intros Hb. rewrite Pos.mul_comm. now apply SFmul_one_float64.
Qed.

(** [l * 1.0] is [l]. *)
Lemma smul_one (l : Loss) : smul l 1 = l.
Proof.
  destruct l as [[d v] Hv]. unfold smul, valid_scalar in *.
  cbn [loss_tensor dtype_of value] in *.
  now rewrite (SFmul_one d v Hv).
Qed.

Lemma promote_types_absorb (d d' : dtype) :
  promote_types (promote_types d d') d = promote_types d d'.
Proof. now destruct d, d'. Qed.

Lemma promote_types_diag (d : dtype) : promote_types d d = d.
Proof. now destruct d. Qed.

Lemma binary_round_aux_valid (p e : Z) (s : bool) (m : positive) (ex : Z) :
  SpecFloat.bounded p e m ex = true ->
  binary_round_aux p e s (Zpos m) ex loc_Exact = S754_finite s m ex.
Proof.
  unfold SpecFloat.bounded, canonical_mantissa.
  intros [Hcan Hle]%andb_prop. apply Z.eqb_eq in Hcan.
  unfold binary_round_aux, shr_fexp. cbn [Zdigits2].
  rewrite Hcan, Z.sub_diag.
  cbn [shr shr_record_of_loc shr_m loc_of_shr_record round_nearest_even Zdigits2].
  rewrite Hcan, Z.sub_diag. cbn [shr shr_record_of_loc shr_m].
  now rewrite Hle.
Qed.

Lemma digits2_pos_shift (m d : positive) :
  digits2_pos (Pos.iter xO m d) = (digits2_pos m + d)%positive.
Proof.
  induction d as [|d IH] using Pos.peano_ind.
  - cbn. lia.
  - rewrite Pos.iter_succ. cbn [digits2_pos]. rewrite IH. lia.
Qed.

(** A binary32 number is a binary64 number: the conversion shifts the
    mantissa to 53 bits and loses nothing. *)
Lemma binary_round_widen (s : bool) (m : positive) (e : Z) :
  SpecFloat.bounded 24 128 m e = true ->
  exists m' e',
    binary_round 53 1024 s m e = S754_finite s m' e'
    /\ SpecFloat.bounded 53 1024 m' e' = true.
Proof.
  unfold SpecFloat.bounded at 1, canonical_mantissa, fexp, emin.
  intros [Hcan Hle]%andb_prop. apply Z.eqb_eq in Hcan. apply Z.leb_le in Hle.
  unfold binary_round, shl_align.
  pose proof (Pos2Z.is_pos (digits2_pos m)) as Hpos.
  assert (Hneg : (fexp 53 1024 (Zpos (digits2_pos m) + e) - e < 0)%Z).
  { unfold fexp, emin. lia. }
  destruct (fexp 53 1024 (Zpos (digits2_pos m) + e) - e)%Z as [|q|q] eqn:Hq;
    try lia.
  assert (Hb : SpecFloat.bounded 53 1024 (Pos.iter xO m q)
                 (fexp 53 1024 (Zpos (digits2_pos m) + e)) = true).
  { unfold SpecFloat.bounded, canonical_mantissa.
    rewrite digits2_pos_shift. apply andb_true_intro. split.
    - apply Z.eqb_eq. unfold fexp, emin in *. lia.
    - apply Z.leb_le. unfold fexp, emin in *. lia. }
  do 2 eexists. split; [|exact Hb].
  now apply binary_round_aux_valid.
Qed.

(** Bringing a number of a dtype to a promoted dtype gives a number of the
    promoted dtype. *)
Lemma round_to_promote_valid (d d' : dtype) (x : spec_float) :
  SpecFloat.valid_binary (prec_of d) (emax_of d) x = true ->
  let D := promote_types d d' in
  SpecFloat.valid_binary (prec_of D) (emax_of D) (round_to D x) = true.
Proof.
  intros Hv D.
  assert (HD : D = d \/ (d = float32 /\ D = float64)).
  { subst D. destruct d, d'; cbn; auto. }
  destruct HD as [-> | [-> ->]].
  - now rewrite round_to_valid.
  - destruct x as [sx|sx| |sx mx ex]; try reflexivity.
    cbn [SpecFloat.valid_binary round_to prec_of emax_of] in *.
    destruct (binary_round_widen sx mx ex Hv) as (m' & e' & -> & Hb).
    exact Hb.
Qed.

Lemma round_to_promote_idem (d d' : dtype) (x : spec_float) :
  SpecFloat.valid_binary (prec_of d) (emax_of d) x = true ->
  let D := promote_types d d' in
  round_to D (round_to D x) = round_to D x.
Proof.
  intros Hv D. apply round_to_valid. now apply round_to_promote_valid.
Qed.

(** Conversion keeps zeros, infinities and NaN, and never makes a NaN of a
    number. *)
Lemma round_to_promote_eqb (d d' : dtype) (x : spec_float) :
  SpecFloat.valid_binary (prec_of d) (emax_of d) x = true ->
  let D := promote_types d d' in
  SFeqb x x = true -> SFeqb (round_to D x) (round_to D x) = true.
Proof.
  intros Hv D.
  assert (HD : D = d \/ (d = float32 /\ D = float64)).
  { subst D. destruct d, d'; cbn; auto. }
  destruct HD as [-> | [-> ->]].
  - now rewrite round_to_valid.
  - destruct x as [sx|sx| |sx mx ex]; try (intros Hx; exact Hx).
    cbn [SpecFloat.valid_binary round_to prec_of emax_of] in *.
    destruct (binary_round_widen sx mx ex Hv) as (m' & e' & -> & Hb).
    intros _. unfold SFeqb. cbn [SFcompare].
    destruct sx; rewrite Z.compare_refl, Pos.compare_cont_refl; reflexivity.
Qed.

Lemma round_to_zero (d : dtype) (s : bool) :
  round_to d (S754_zero s) = S754_zero s.
Proof. reflexivity. Qed.

Lemma round_to_nan (d : dtype) : round_to d S754_nan = S754_nan.
Proof. reflexivity. Qed.

(** Adding a zero changes at most the sign of a zero. *)
Lemma SFadd_zero_r (p e : Z) (x : spec_float) (s : bool) :
  SFadd p e x (S754_zero s) = x
  \/ (x = S754_zero true /\ SFadd p e x (S754_zero s) = S754_zero false).
Proof.
  destruct x as [[|]|sx| |sx mx ex], s; cbn; auto.
Qed.

Lemma SFadd_zero_l (p e : Z) (x : spec_float) (s : bool) :
  SFadd p e (S754_zero s) x = x
  \/ (x = S754_zero true /\ SFadd p e (S754_zero s) x = S754_zero false).
Proof.
  destruct x as [[|]|sx| |sx mx ex], s; cbn; auto.
Qed.

Lemma SFmul_nan_r (p e : Z) (x : spec_float) : SFmul p e x S754_nan = S754_nan.
Proof. now destruct x. Qed.

Lemma SFadd_nan_r (p e : Z) (x : spec_float) : SFadd p e x S754_nan = S754_nan.
Proof. now destruct x. Qed.

(** A finite number times a zero is a zero; anything else times a zero is
    NaN. *)
Lemma SFmul_zero_r (p e : Z) (x : spec_float) (s : bool) :
  match x with
  | S754_zero _ | S754_finite _ _ _ =>
      exists s', SFmul p e x (S754_zero s) = S754_zero s'
  | _ => SFmul p e x (S754_zero s) = S754_nan
  end.
Proof.
  destruct x as [sx|sx| |sx mx ex]; cbn; eauto.
Qed.

(** NaN in a product or a sum makes the result NaN. *)
Lemma smul_nan_weight (t : Scalar) : value (smul t nan) = S754_nan.
Proof.
  unfold smul. cbn [value]. change (Prim2SF nan) with S754_nan.
  rewrite round_to_nan. apply SFmul_nan_r.
Qed.

Lemma smul_nan_value (t : Scalar) (x : float) :
  value t = S754_nan -> value (smul t x) = S754_nan.
Proof.
  unfold smul. cbn [value]. now intros ->.
Qed.

Lemma sadd_nan_r (a b : Scalar) :
  value b = S754_nan -> value (sadd a b) = S754_nan.
Proof.
  unfold sadd. cbn [value]. intros ->. rewrite round_to_nan. apply SFadd_nan_r.
Qed.

(** [l * (1 - rw) + z * rw] for a zero weight [rw] and the constant
    [z = torch.tensor(0.0)] of dtype [d0]: [l] in the promoted dtype, up to
    the sign of a zero. *)
Lemma blend_zero_weight (l : Loss) (d0 : dtype) (rw : float) :
  (rw =? 0) = true ->
  let z := {| dtype_of := d0; value := round_to d0 (Prim2SF 0) |} in
  let D := promote_types (dtype_of l) d0 in
  equal_up_to_zero_sign (sadd (smul l (1 - rw)) (smul z rw)) (to_dtype D l).
Proof.
  intros Hrw z D.
  assert (H1 : (1 - rw)%float = 1%float)
    by (destruct (float_eqb_zero_inv _ Hrw) as [-> | ->]; reflexivity).
  assert (Hz : exists s, smul z rw = {| dtype_of := d0; value := S754_zero s |}).
  { destruct (float_eqb_zero_inv _ Hrw) as [-> | ->];
      [exists false | exists true]; destruct d0; reflexivity. }
  destruct Hz as [s Hz]. rewrite H1, smul_one, Hz.
  unfold sadd, to_dtype, equal_up_to_zero_sign. cbn [dtype_of value].
  fold D. rewrite round_to_zero.
  destruct (SFadd_zero_r (prec_of D) (emax_of D) (round_to D (value l)) s)
    as [-> | [Hx ->]]; [now left | right; now split].
Qed.

(** [f * (1 - rw) + r * rw] for the weight [rw = 1]. *)
Lemma blend_unit_weight (f r : Loss) (rw : float) :
  (rw =? 1) = true ->
  let l := sadd (smul f (1 - rw)) (smul r rw) in
  let D := promote_types (dtype_of f) (dtype_of r) in
  if is_finite_scalar f
  then equal_up_to_zero_sign l (to_dtype D r)
  else value l = S754_nan.
Proof.
  intros ->%float_eqb_one_inv l D. subst l.
  change (1 - 1)%float with 0%float. rewrite smul_one.
  unfold is_finite_scalar.
  pose proof (SFmul_zero_r (prec_of (dtype_of f)) (emax_of (dtype_of f))
                (value f) false) as Hz.
  assert (H0 : round_to (dtype_of f) (Prim2SF 0) = S754_zero false)
    by now destruct (dtype_of f).
  unfold sadd, smul, to_dtype, equal_up_to_zero_sign.
  cbn [dtype_of value]. fold D. rewrite H0.
  destruct (value f) as [sf|sf| |sf mf ef].
  - destruct Hz as [s' ->]. rewrite round_to_zero.
    destruct (SFadd_zero_l (prec_of D) (emax_of D) (round_to D (value r)) s')
      as [-> | [Hx ->]]; [now left | right; now split].
  - rewrite Hz. reflexivity.
  - rewrite Hz. reflexivity.
  - destruct Hz as [s' ->]. rewrite round_to_zero.
    destruct (SFadd_zero_l (prec_of D) (emax_of D) (round_to D (value r)) s')
      as [-> | [Hx ->]]; [now left | right; now split].
Qed.

(** What is equal up to the sign of a zero compares equal. *)
Lemma equal_up_to_zero_sign_seqb (l : Scalar) (x : Loss) (d' : dtype) :
  equal_up_to_zero_sign l (to_dtype (promote_types (dtype_of x) d') x) ->
  seqb x x = true -> seqb l x = true.
Proof.
  unfold seqb, equal_up_to_zero_sign, to_dtype. cbn [dtype_of value].
  rewrite promote_types_diag.
  rewrite (round_to_valid _ _ (loss_valid x)).
  intros [-> | [Hx ->]] Hxx; cbn [dtype_of value];
    rewrite promote_types_absorb.
  - rewrite (round_to_promote_idem _ d' _ (loss_valid x)).
    now apply round_to_promote_eqb; [apply (loss_valid x)|].
  - rewrite Hx. reflexivity.
Qed.

End ScalarFacts.

(** * Runs of the model's functions *)
Section Runs.
Context `{Torch} (env : Env).

Lemma bind_ret {A B} (a : A) (k : A -> M B) : bind (ret a) k = k a.
Proof. unfold bind, ret. now destruct (k a). Qed.

Lemma bind_raise {A B} (e : exn) (k : A -> M B) : bind (raise e) k = raise e.
Proof. reflexivity. Qed.

Lemma bind_invoke {A B} (c : call) (v : A) (k : A -> M B) :
  bind (invoke c v) k = (c :: fst (k v), snd (k v)).
Proof. unfold bind, invoke. now destruct (k v). Qed.

Lemma bind_ext {A B} (m : M A) (k1 k2 : A -> M B) :
  (forall a, k1 a = k2 a) -> bind m k1 = bind m k2.
Proof.
  intros Hk. destruct m as [t [e|a]]; cbn; [reflexivity|]. now rewrite Hk.
Qed.

Lemma decoder_forward_run (d : BiTransformerDecoder)
    (memory memory_mask ys_in ys_lens r_ys_in : Tensor) (rw : float) :
  decoder_forward d memory memory_mask ys_in ys_lens r_ys_in rw
  = (call_left_decoder :: (if 0 <? rw then [call_right_decoder] else []),
     inr (fst (left_decoder d memory memory_mask ys_in ys_lens),
          (if 0 <? rw
           then right_decoder d memory memory_mask r_ys_in ys_lens
           else tensor 0),
          snd (left_decoder d memory memory_mask ys_in ys_lens))).
Proof.
  unfold decoder_forward. rewrite bind_invoke.
  destruct (left_decoder d memory memory_mask ys_in ys_lens) as [l_x olens].
  destruct (0 <? rw); reflexivity.
Qed.

(** [_calc_att_loss] always returns: its log and its two results. *)
Lemma calc_att_loss_run (self : ConformerModel)
    (encoder_out encoder_mask ys_pad ys_pad_lens : Tensor) (rw_arg : float) :
  _calc_att_loss env self encoder_out encoder_mask ys_pad ys_pad_lens rw_arg
  = (attention_calls self,
     inr (attention_loss env self encoder_out encoder_mask ys_pad ys_pad_lens,
          acc_att env self encoder_out encoder_mask ys_pad ys_pad_lens)).
Proof.
  unfold _calc_att_loss, attention_calls, attention_loss, forward_loss, r_loss_att,
    reverse_loss,
    acc_att, decoder_out, r_decoder_out, r_ys_in_out_pad, r_ys_pad, ys_in_out_pad,
    ys_in_lens.
  rewrite bind_invoke.
  destruct (add_sos_eos env ys_pad (sos self) (eos self) (ignore_id self))
    as [ys_in ys_out].
  rewrite bind_invoke, bind_invoke.
  destruct (add_sos_eos env _ (sos self) (eos self) (ignore_id self))
    as [r_ys_in r_ys_out].
  rewrite decoder_forward_run.
  destruct (0 <? reverse_weight self); reflexivity.
Qed.

Lemma same_batch_unified (speech speech_lengths text text_lengths : Tensor) :
  same_batch speech speech_lengths text text_lengths = true ->
  batch_size_unified speech speech_lengths text text_lengths = ret true.
Proof.
  unfold same_batch, batch_dim, batch_size_unified, shape0.
  destruct (tshape speech) as [|a ?], (tshape speech_lengths) as [|b ?],
    (tshape text) as [|c ?], (tshape text_lengths) as [|d ?];
    cbn; try discriminate.
  intros [[Hab Hbc]%andb_prop Hcd]%andb_prop.
  rewrite Hab. cbn. rewrite Hbc. cbn. now rewrite Hcd.
Qed.


(** On accepted inputs [forward] returns: its log and its bundle. *)
Lemma forward_run (self : ConformerModel)
    (speech speech_lengths text text_lengths : Tensor) :
  inputs_ok speech speech_lengths text text_lengths = true ->
  let encoder_out := fst (encoder_result self speech speech_lengths) in
  let encoder_mask := snd (encoder_result self speech speech_lengths) in
  let att := if negb (ctc_weight self =? 1)
             then Some (attention_loss env self encoder_out encoder_mask text
                          text_lengths)
             else None in
  let ctc := if negb (ctc_weight self =? 0)
             then Some (loss_tensor
                          (ctc_loss self speech speech_lengths text text_lengths))
             else None in
  forward env self speech speech_lengths text text_lengths
  = (call_encoder
       :: (if negb (ctc_weight self =? 1) then attention_calls self else [])
       ++ (if negb (ctc_weight self =? 0) then [call_ctc] else []),
     inr {| loss := blend (ctc_weight self) ctc att;
            loss_att := att;
            loss_ctc := ctc |}).
Proof.
  unfold inputs_ok. intros [Hdim Hsame]%andb_prop. cbv zeta.
  unfold forward, ctc_loss, encoder_out_lens, encoder_result.
  rewrite Hdim. cbn [assert_]. rewrite bind_ret.
  rewrite (same_batch_unified _ _ _ _ Hsame), bind_ret.
  cbn [assert_]. rewrite bind_ret, bind_invoke.
  destruct (encoder_forward (encoder self) speech speech_lengths None None)
    as [encoder_out encoder_mask]. cbn [fst snd].
  destruct (ctc_weight self =? 1), (ctc_weight self =? 0); cbn [negb];
    rewrite ?calc_att_loss_run; cbn; rewrite ?app_nil_r; reflexivity.
Qed.

(** [forward] stops at its first assertion when [text_lengths] is not a
    vector. *)
Lemma forward_rank_assert (self : ConformerModel)
    (speech speech_lengths text text_lengths : Tensor) :
  (dim text_lengths =? 1)%nat = false ->
  forward env self speech speech_lengths text text_lengths
  = ([], inl (AssertionError (args_shape (tshape text_lengths)))).
Proof. intros Hd. unfold forward. now rewrite Hd. Qed.

(** Without a common batch dimension [forward] raises, and has called
    nothing. *)
Lemma forward_batch_reject (self : ConformerModel)
    (speech speech_lengths text text_lengths : Tensor) :
  same_batch speech speech_lengths text text_lengths = false ->
  exists e, forward env self speech speech_lengths text text_lengths = ([], inl e).
Proof.
  intros Hsame.
  destruct (dim text_lengths =? 1)%nat eqn:Hd;
    [|eexists; now apply forward_rank_assert].
  unfold forward. rewrite Hd. cbn [assert_]. rewrite bind_ret.
  revert Hsame.
  unfold same_batch, batch_dim, batch_size_unified, shape0.
  destruct (tshape speech) as [|a ?]; [eexists; reflexivity|].
  destruct (tshape speech_lengths) as [|b ?]; [eexists; reflexivity|].
  cbn [hd_error]. rewrite !bind_ret.
  destruct (a =? b)%nat; cbn [negb andb]; [|eexists; reflexivity].
  destruct (tshape text) as [|c ?]; [eexists; reflexivity|].
  cbn [hd_error]. rewrite !bind_ret.
  destruct (b =? c)%nat; cbn [negb andb]; [|eexists; reflexivity].
  destruct (tshape text_lengths) as [|d ?]; [eexists; reflexivity|].
  cbn [hd_error andb]. rewrite !bind_ret. intros Hcd. rewrite Hcd.
  eexists; reflexivity.
Qed.

(** [forward] returns only on accepted inputs. *)
Lemma forward_returns_inv (self : ConformerModel)
    (speech speech_lengths text text_lengths : Tensor)
    (t : list call) (b : LossBundle) :
  forward env self speech speech_lengths text text_lengths = (t, inr b) ->
  inputs_ok speech speech_lengths text text_lengths = true.
Proof.
  intros Hrun. unfold inputs_ok.
  destruct (dim text_lengths =? 1)%nat eqn:Hd.
  - destruct (same_batch speech speech_lengths text text_lengths) eqn:Hsame;
      [reflexivity|].
    destruct (forward_batch_reject self _ _ _ _ Hsame) as [e He]. congruence.
  - rewrite (forward_rank_assert self _ _ _ _ Hd) in Hrun. discriminate Hrun.
Qed.

End Runs.

(** * Construction *)
Section Construction.
Context `{Torch} (env : Env).
Variable configs : Configs (EncoderConf env) (DecoderConf env).
(** The arguments of [__init__]: [input_dim], [vocab_size], [ignore_id];
    [ctc_weight], [reverse_weight], [lsm_weight]; and the four flags. *)
Variables n_in V ig : Z.
Variables w rw lsm : float.
Variables length_normalized use_dynamic_chunk use_dynamic_left_chunk causal : bool.

Let init : M ConformerModel :=
  __init__ env configs n_in V w ig rw lsm
    length_normalized use_dynamic_chunk use_dynamic_left_chunk causal.

(** C8: construction validates [ctc_weight] first.  A weight for which
    [0.0 <= ctc_weight <= 1.0] is false (below 0, above 1, or NaN) makes
    [__init__] raise the assertion error carrying the weight (the spec's
    ConfigError), before any collaborator is called.  A weight in [0,1]
    passes the validation: construction goes on to load the normalization
    statistics, and returns a model with that [ctc_weight] when they load,
    the loader's own error otherwise. *)
Theorem init_validates_ctc_weight :
  ((0 <=? w) && (w <=? 1) = false ->
   init = ([], inl (AssertionError (args_float w))))
  /\ ((0 <=? w) && (w <=? 1) = true ->
      trace init = [call_FeatureNormalizer]
      /\ (forall cmvn, load_global_cmvn env (mean_istd_path configs) = inr cmvn ->
          exists m, outcome init = inr m /\ ctc_weight m = w)
      /\ (forall e, load_global_cmvn env (mean_istd_path configs) = inl e ->
          outcome init = inl e)).
Proof.
  unfold init, __init__, trace, outcome. split; intros Hw; rewrite Hw; cbn [assert_].
  - reflexivity.
  - rewrite bind_ret. unfold invoke_fallible, bind.
    destruct (load_global_cmvn env (mean_istd_path configs)) as [e|cmvn]; cbn.
    + repeat split; [discriminate | congruence].
    + repeat split; [|discriminate].
      intros cmvn' [= <-]. eexists. split; reflexivity.
Qed.

(** C9: in every constructed model the start and end markers are the same
    token, [vocab_size - 1]; so every call of the label transformation
    [add_sos_eos] made by an attention-loss computation on that model, for
    the forward and for the reversed targets, receives [vocab_size - 1] as both
    its start and its end marker. *)
Theorem init_sos_eq_eos (t : list call) (m : ConformerModel) :
  init = (t, inr m) ->
  sos m = eos m
  /\ sos m = (V - 1)%Z
  /\ eos m = (V - 1)%Z
  /\ forall encoder_out encoder_mask ys_pad ys_pad_lens rw_arg,
       filter is_add_sos_eos_call
         (trace (_calc_att_loss env m encoder_out encoder_mask ys_pad ys_pad_lens
                   rw_arg))
       = [call_add_sos_eos (V - 1) (V - 1) ig;
          call_add_sos_eos (V - 1) (V - 1) ig].
Proof.
  unfold init, __init__. intros Hinit.
  destruct ((0 <=? w) && (w <=? 1)); cbn [assert_] in Hinit;
    [rewrite bind_ret in Hinit | discriminate Hinit].
  unfold invoke_fallible, bind in Hinit.
  destruct (load_global_cmvn env (mean_istd_path configs)) as [e|cmvn];
    [discriminate Hinit|].
  cbn in Hinit. injection Hinit as _ <-. cbn [sos eos].
  repeat split. intros. rewrite calc_att_loss_run. unfold trace, attention_calls.
  cbn [fst sos eos ignore_id reverse_weight].
  destruct (0 <? rw); reflexivity.
Qed.

End Construction.

(** * The training forward pass *)
Section Forward.
Context `{Torch} (env : Env) (self : ConformerModel).
Variables speech speech_lengths text text_lengths : Tensor.

Let w : float := ctc_weight self.
Let rw : float := reverse_weight self.
Let encoder_out : Tensor := fst (encoder_result self speech speech_lengths).
Let encoder_mask : Tensor := snd (encoder_result self speech speech_lengths).
(** The losses of this call. *)
Let l_fwd : Loss := forward_loss env self encoder_out encoder_mask text text_lengths.
Let l_rev : Loss := reverse_loss env self encoder_out encoder_mask text text_lengths.
Let l_att : Scalar :=
  attention_loss env self encoder_out encoder_mask text text_lengths.
Let l_ctc : Loss := ctc_loss self speech speech_lengths text text_lengths.
Let run : M LossBundle := forward env self speech speech_lengths text text_lengths.

(** On accepted inputs, a weight in [0,1] puts the call in one of three
    regimes, each with its log and its bundle. *)
Lemma forward_unit_interval_regimes :
  (0 <=? w) && (w <=? 1) = true ->
  inputs_ok speech speech_lengths text text_lengths = true ->
  ((w =? 1) = true
   /\ run = ([call_encoder; call_ctc],
             inr {| loss := Some (loss_tensor l_ctc);
                    loss_att := None;
                    loss_ctc := Some (loss_tensor l_ctc) |}))
  \/ ((w =? 0) = true
      /\ run = (call_encoder :: attention_calls self,
                inr {| loss := Some l_att;
                       loss_att := Some l_att;
                       loss_ctc := None |}))
  \/ ((0 <? w) = true /\ (w <? 1) = true
      /\ run = (call_encoder :: attention_calls self ++ [call_ctc],
                inr {| loss := Some (sadd (smul l_ctc w) (smul l_att (1 - w)));
                       loss_att := Some l_att;
                       loss_ctc := Some (loss_tensor l_ctc) |})).
Proof.
  intros Hw Hok. unfold run. rewrite (forward_run env self _ _ _ _ Hok). fold w.
  destruct (float_unit_interval_cases w Hw) as [H1 | [H0 | [Hlt0 Hlt1]]].
  - left. split; [exact H1|].
    now rewrite H1, (float_eqb_one_neq_zero _ H1).
  - right; left. split; [exact H0|].
    rewrite H0, (float_eqb_zero_neq_one _ H0). cbn [negb blend].
    now rewrite app_nil_r.
  - right; right. split; [exact Hlt0|]. split; [exact Hlt1|].
    now rewrite (float_ltb_neq _ _ Hlt1), (float_ltb_zero_neq _ Hlt0).
Qed.


(** C1: the total loss of a successful call.  With [0 < ctc_weight < 1] both
    branches run and [loss = ctc_weight * loss_ctc + (1 - ctc_weight) *
    loss_att], where [loss_ctc] is the loss of the CTC head, [loss_att] the
    attention loss, [1 - ctc_weight] is taken on Python floats, and the two
    products and the sum are taken as torch takes them, in the dtype of the
    loss tensors; whenever exactly one of the two is present, [loss] is that
    one. *)
Theorem forward_total_loss_blend :
  inputs_ok speech speech_lengths text text_lengths = true ->
  exists t b,
    run = (t, inr b)
    /\ ((0 <? w) = true -> (w <? 1) = true ->
        exists c a,
          loss_ctc b = Some c /\ loss_att b = Some a
          /\ c = loss_tensor l_ctc
          /\ a = l_att
          /\ loss b = Some (sadd (smul c w) (smul a (1 - w))))
    /\ (forall c, loss_ctc b = Some c -> loss_att b = None -> loss b = Some c)
    /\ (forall a, loss_att b = Some a -> loss_ctc b = None -> loss b = Some a).
Proof.
  intros Hok. unfold run. rewrite (forward_run env self _ _ _ _ Hok).
  do 2 eexists. split; [reflexivity|]. cbn [loss loss_att loss_ctc].
  split; [|split].
  - intros H0 H1. fold w.
    rewrite (float_ltb_neq _ _ H1), (float_ltb_zero_neq _ H0). cbn [negb blend].
    do 2 eexists. repeat split; reflexivity.
  - intros c -> ->. reflexivity.
  - intros a -> ->. reflexivity.
Qed.

(** C3: with [ctc_weight = 1.0] the attention branch is skipped: the call
    log holds the encoder and the CTC head and nothing of the attention
    branch, [loss_att] is [None] (absent, not a zero-weighted number), and
    [loss] is the CTC loss itself. *)
Theorem forward_ctc_only :
  inputs_ok speech speech_lengths text text_lengths = true ->
  (w =? 1) = true ->
  run = ([call_encoder; call_ctc],
         inr {| loss := Some (loss_tensor l_ctc);
                loss_att := None;
                loss_ctc := Some (loss_tensor l_ctc) |}).
Proof.
  intros Hok H1. unfold run. rewrite (forward_run env self _ _ _ _ Hok). fold w.
  now rewrite H1, (float_eqb_one_neq_zero _ H1).
Qed.

(** C4: with [ctc_weight = 0.0] the CTC head is not called, [loss_ctc] is
    [None], and [loss] is [loss_att] itself. *)
Theorem forward_attention_only :
  inputs_ok speech speech_lengths text text_lengths = true ->
  (w =? 0) = true ->
  exists a,
    run = (call_encoder :: attention_calls self,
           inr {| loss := Some a; loss_att := Some a; loss_ctc := None |})
    /\ a = sadd (smul l_fwd (1 - rw))
             (smul (r_loss_att env self encoder_out encoder_mask text text_lengths)
                rw)
    /\ existsb is_ctc_call (call_encoder :: attention_calls self) = false.
Proof.
  intros Hok H0. unfold run. rewrite (forward_run env self _ _ _ _ Hok). fold w.
  rewrite H0, (float_eqb_zero_neq_one _ H0). cbn [negb blend].
  rewrite app_nil_r. eexists. split; [reflexivity|]. split; [reflexivity|].
  unfold attention_calls. destruct (0 <? reverse_weight self); reflexivity.
Qed.

(** C10: on a model whose [ctc_weight] lies in [0,1], a call that passes the
    shape checks runs at least one of the two loss branches and returns its
    loss.  There are three cases and no other: at weight 1 the encoder and
    the CTC head are called and [loss] is the CTC loss; at weight 0 the
    encoder and the attention branch are called and [loss] is the attention
    loss; strictly between, both branches are called, the attention branch
    first, and [loss] is the blend of the two.  A call returns only if it
    passes the shape checks, so in every returned bundle [loss] is present,
    one of [loss_att] and [loss_ctc] is present, and a branch whose loss is
    present has been run: the log holds a call of the criterion for
    [loss_att] and a call of the CTC head for [loss_ctc]. *)
Theorem forward_loss_never_none :
  (0 <=? w) && (w <=? 1) = true ->
  (inputs_ok speech speech_lengths text text_lengths = true ->
   ((w =? 1) = true
    /\ run = ([call_encoder; call_ctc],
              inr {| loss := Some (loss_tensor l_ctc);
                     loss_att := None;
                     loss_ctc := Some (loss_tensor l_ctc) |}))
   \/ ((w =? 0) = true
       /\ run = (call_encoder :: attention_calls self,
                 inr {| loss := Some l_att;
                        loss_att := Some l_att;
                        loss_ctc := None |}))
   \/ ((0 <? w) = true /\ (w <? 1) = true
       /\ run = (call_encoder :: attention_calls self ++ [call_ctc],
                 inr {| loss := Some (sadd (smul l_ctc w) (smul l_att (1 - w)));
                        loss_att := Some l_att;
                        loss_ctc := Some (loss_tensor l_ctc) |})))
  /\ (forall t b, run = (t, inr b) ->
      loss b <> None
      /\ (loss_att b <> None \/ loss_ctc b <> None)
      /\ (loss_att b <> None -> existsb is_criterion_call t = true)
      /\ (loss_ctc b <> None -> existsb is_ctc_call t = true)).
Proof.
  intros Hw. split; [exact (forward_unit_interval_regimes Hw)|].
  intros t b Hrun.
  pose proof (forward_returns_inv env self _ _ _ _ t b Hrun) as Hok.
  destruct (forward_unit_interval_regimes Hw Hok)
    as [[_ Hr] | [[_ Hr] | (_ & _ & Hr)]];
    rewrite Hrun in Hr; injection Hr as -> ->; cbn [loss loss_att loss_ctc].
  - split; [discriminate|]. split; [right; discriminate|].
    split; [intros Hn; now contradict Hn | reflexivity].
  - split; [discriminate|]. split; [left; discriminate|].
    split; [intros _ | intros Hn; now contradict Hn].
    unfold attention_calls. destruct (0 <? reverse_weight self); reflexivity.
  - split; [discriminate|]. split; [left; discriminate|].
    split; intros _; unfold attention_calls;
      destruct (0 <? reverse_weight self); reflexivity.
Qed.


End Forward.

(** * The attention loss *)
Section AttentionLoss.
Context `{Torch} (env : Env) (self : ConformerModel).
Variables encoder_out encoder_mask ys_pad ys_pad_lens : Tensor.
Variable rw_arg : float.

Let rw : float := reverse_weight self.
Let l_fwd : Loss := forward_loss env self encoder_out encoder_mask ys_pad ys_pad_lens.

(** C5: with [reverse_weight = 0] the attention-loss computation calls the
    label transformations, the left decoder, the criterion once (on the
    forward direction) and the accuracy, and nothing else: the right
    decoder is not run and no reverse loss is computed, the reverse loss
    being the constant [torch.tensor(0.0)].  The loss returned,
    [forward_loss * (1 - 0) + 0 * 0], is the forward loss brought to the
    dtype that it and the constant promote to, except that a forward loss
    of [-0.0] comes back as [+0.0]; where that dtype is the forward loss's
    own (as with [float32] losses under torch's default dtype) it is
    [forward_loss] itself, to the bit, with the same exception; and in
    every case it compares equal ([==]) to the forward loss whenever that is
    a number. *)
Theorem calc_att_loss_forward_only :
  (rw =? 0) = true ->
  exists l acc,
    _calc_att_loss env self encoder_out encoder_mask ys_pad ys_pad_lens rw_arg
    = ([call_add_sos_eos (sos self) (eos self) (ignore_id self);
        call_reverse_pad_list;
        call_add_sos_eos (sos self) (eos self) (ignore_id self);
        call_left_decoder;
        call_criterion_att;
        call_th_accuracy],
       inr (l, acc))
    /\ l = sadd (smul l_fwd (1 - rw)) (smul (scalar_tensor 0) rw)
    /\ equal_up_to_zero_sign l
         (to_dtype (promote_types (dtype_of l_fwd) default_dtype) l_fwd)
    /\ (promote_types (dtype_of l_fwd) default_dtype = dtype_of l_fwd ->
        equal_up_to_zero_sign l l_fwd)
    /\ (seqb l_fwd l_fwd = true -> seqb l l_fwd = true).
Proof.
  intros H0. rewrite calc_att_loss_run.
  unfold attention_calls, attention_loss, r_loss_att. fold rw l_fwd.
  rewrite (float_eqb_zero_not_pos _ H0).
  do 2 eexists. split; [reflexivity|]. split; [reflexivity|].
  pose proof (blend_zero_weight l_fwd default_dtype rw H0) as Hl.
  cbv zeta in Hl. fold (scalar_tensor 0) in Hl.
  split; [exact Hl|]. split.
  - intros HD. rewrite HD, to_dtype_same in Hl. exact Hl.
  - now apply (equal_up_to_zero_sign_seqb _ l_fwd default_dtype).
Qed.

End AttentionLoss.

(** * What every call of [forward] does *)
Section ForwardProperties.
Context `{Torch} (env : Env) (self : ConformerModel).
Variables speech speech_lengths text text_lengths : Tensor.

Let w : float := ctc_weight self.
Let run : M LossBundle := forward env self speech speech_lengths text text_lengths.

(** X1: [forward] validates its inputs before it calls anything.  On
    inputs that fail the shape checks it raises with an empty log: no
    collaborator has been called.  On inputs that pass them the first call
    is the encoder's, and the encoder is not called again. *)
Theorem forward_validates_before_encoder :
  (inputs_ok speech speech_lengths text text_lengths = false ->
   exists e, run = ([], inl e))
  /\ (inputs_ok speech speech_lengths text text_lengths = true ->
      exists t o,
        run = (call_encoder :: t, o) /\ existsb is_encoder_call t = false).
Proof.
  split; intros Hok.
  - unfold inputs_ok in Hok.
    destruct (dim text_lengths =? 1)%nat eqn:Hd.
    + cbn [andb] in Hok. exact (forward_batch_reject env self _ _ _ _ Hok).
    + eexists. exact (forward_rank_assert env self _ _ _ _ Hd).
  - unfold run. rewrite (forward_run env self _ _ _ _ Hok).
    do 2 eexists. split; [reflexivity|]. unfold attention_calls.
    destruct (ctc_weight self =? 1), (ctc_weight self =? 0),
      (0 <? reverse_weight self); reflexivity.
Qed.

(** X2: in every bundle [forward] returns, which losses are present is
    decided by [ctc_weight] alone: [loss_att] is [None] exactly when
    [ctc_weight == 1.0], [loss_ctc] is [None] exactly when
    [ctc_weight == 0.0], and [loss] is the other loss whenever one is
    missing. *)
Theorem forward_bundle_presence (t : list call) (b : LossBundle) :
  run = (t, inr b) ->
  (loss_att b = None <-> (w =? 1) = true)
  /\ (loss_ctc b = None <-> (w =? 0) = true)
  /\ (loss_att b = None -> loss b = loss_ctc b)
  /\ (loss_ctc b = None -> loss b = loss_att b).
Proof.
  intros Hrun.
  pose proof (forward_returns_inv env self _ _ _ _ t b Hrun) as Hok.
  unfold run in Hrun. rewrite (forward_run env self _ _ _ _ Hok) in Hrun.
  injection Hrun as _ <-. cbn [loss loss_att loss_ctc]. fold w.
  destruct (w =? 1) eqn:H1, (w =? 0) eqn:H0; cbn [negb blend];
    repeat split; intros; try reflexivity; try discriminate; try congruence.
Qed.

(** X7: the [IndexError] of the shape checks.  [forward] raises
    [IndexError] before any collaborator is called exactly when
    [text_lengths] is a vector and the chained comparison indexes a tensor
    of rank 0: [speech], or [speech_lengths], or [text] once the first two
    batch sizes agree.  A rank-0 [text] behind two batch sizes that differ
    is never indexed: the call raises the assertion error; and a
    [text_lengths] that is not a vector stops the call at the first
    assertion, whatever the other ranks. *)
Theorem forward_index_error_iff :
  (run = ([], inl IndexError)
   <-> reaches_rank0 speech speech_lengths text text_lengths = true)
  /\ (forall a s b s',
        dim text_lengths = 1%nat ->
        tshape speech = a :: s -> tshape speech_lengths = b :: s' ->
        a <> b -> tshape text = [] ->
        run = ([], inl (AssertionError
                          (args_shapes (a :: s) (b :: s') [] (tshape text_lengths)))))
  /\ (dim text_lengths <> 1%nat ->
      run = ([], inl (AssertionError (args_shape (tshape text_lengths))))).
Proof.
  split; [|split].
  - unfold run, forward, reaches_rank0, batch_size_unified, shape0, dim.
    destruct (tshape text_lengths) as [|d [|d' ?]]; cbn -[_calc_att_loss];
      try (split; discriminate).
    destruct (tshape speech) as [|a ?]; cbn -[_calc_att_loss]; [tauto|].
    destruct (tshape speech_lengths) as [|b0 ?]; cbn -[_calc_att_loss]; [tauto|].
    destruct (tshape text) as [|c ?]; cbn -[_calc_att_loss];
      [destruct (a =? b0)%nat; cbn -[_calc_att_loss]; [tauto | split; discriminate]|].
    destruct (a =? b0)%nat; cbn -[_calc_att_loss]; [|split; discriminate].
    destruct (b0 =? c)%nat; cbn -[_calc_att_loss]; [|split; discriminate].
    destruct (c =? d)%nat; cbn -[_calc_att_loss]; [|split; discriminate].
    destruct (encoder_forward (encoder self) speech speech_lengths None None)
      as [encoder_out encoder_mask].
    destruct (ctc_weight self =? 1), (ctc_weight self =? 0); cbn -[_calc_att_loss];
      rewrite ?calc_att_loss_run; cbn; split; discriminate.
  - intros a s b s' Hd Hs Hsl Hab Ht.
    unfold run, forward, batch_size_unified, shape0.
    rewrite Hd, Hs, Hsl, Ht. apply Nat.eqb_neq in Hab.
    cbn [Nat.eqb assert_]. rewrite !bind_ret, Hab. reflexivity.
  - intros Hd. apply forward_rank_assert. now apply Nat.eqb_neq.
Qed.

(** X8: the accuracy of the attention branch is computed and dropped.
    Replacing [th_accuracy] by any other function leaves the whole result of
    [forward] unchanged, log and bundle; yet every successful call with
    [ctc_weight != 1.0] does call it, once. *)
Theorem forward_discards_accuracy (f : Tensor -> Tensor -> Z -> float) :
  forward (set_th_accuracy env f) self speech speech_lengths text text_lengths
  = run
  /\ (inputs_ok speech speech_lengths text text_lengths = true ->
      (w =? 1) = false ->
      List.length (filter is_th_accuracy_call (trace run)) = 1%nat).
Proof.
  split.
  - unfold run, forward.
    do 3 (apply bind_ext; intros ?).
    rewrite !bind_invoke.
    destruct (encoder_forward (encoder self) speech speech_lengths None None)
      as [encoder_out encoder_mask].
    rewrite !calc_att_loss_run. reflexivity.
  - intros Hok H1. unfold run. rewrite (forward_run env self _ _ _ _ Hok).
    fold w. rewrite H1. unfold trace, attention_calls. cbn [negb fst].
    destruct (w =? 0), (0 <? reverse_weight self); reflexivity.
Qed.

End ForwardProperties.

(** * Construction followed by training *)
Section ConstructedModels.
Context `{Torch} (env : Env).
Variable configs : Configs (EncoderConf env) (DecoderConf env).
Variables n_in V ig : Z.
Variables w rw lsm : float.
Variables length_normalized use_dynamic_chunk use_dynamic_left_chunk causal : bool.

Let init : M ConformerModel :=
  __init__ env configs n_in V w ig rw lsm
    length_normalized use_dynamic_chunk use_dynamic_left_chunk causal.

(** What a successful construction tells about its arguments and result. *)
Lemma init_returns_inv (t : list call) (m : ConformerModel) :
  init = (t, inr m) ->
  (0 <=? w) && (w <=? 1) = true
  /\ exists cmvn,
       load_global_cmvn env (mean_istd_path configs) = inr cmvn
       /\ t = [call_FeatureNormalizer]
       /\ m = {| input_dim := n_in;
                 encoder := new_ConformerEncoder env n_in cmvn use_dynamic_chunk
                              use_dynamic_left_chunk causal (encoder_conf configs);
                 decoder := new_BiTransformerDecoder env V
                              (output_size
                                 (new_ConformerEncoder env n_in cmvn
                                    use_dynamic_chunk use_dynamic_left_chunk causal
                                    (encoder_conf configs)))
                              (decoder_conf configs);
                 ctc := new_CTCLoss env V
                          (output_size
                             (new_ConformerEncoder env n_in cmvn use_dynamic_chunk
                                use_dynamic_left_chunk causal (encoder_conf configs)));
                 sos := V - 1;
                 eos := V - 1;
                 vocab_size := V;
                 ignore_id := ig;
                 ctc_weight := w;
                 reverse_weight := rw;
                 criterion_att := new_LabelSmoothingLoss env V ig lsm
                                    length_normalized |}.
Proof.
  unfold init, __init__. intros Hinit.
  destruct ((0 <=? w) && (w <=? 1)); cbn [assert_] in Hinit;
    [rewrite bind_ret in Hinit | discriminate Hinit].
  split; [reflexivity|].
  unfold invoke_fallible, bind in Hinit.
  destruct (load_global_cmvn env (mean_istd_path configs)) as [e|cmvn];
    [discriminate Hinit|].
  cbn in Hinit. injection Hinit as <- <-. now exists cmvn.
Qed.

(** X3: a constructed model trains in exactly one of three regimes.  On
    accepted inputs [forward] returns, and either [ctc_weight] is 1 and the
    bundle holds the CTC loss alone, or it is 0 and the bundle holds the
    attention loss alone, or it lies strictly between and [loss] is
    [ctc_weight * loss_ctc + (1 - ctc_weight) * loss_att], the products and
    the sum taken in the dtype of the loss tensors.  No other case is left,
    the weight having passed the check of [__init__]. *)
Theorem constructed_model_regimes (t : list call) (m : ConformerModel)
    (speech speech_lengths text text_lengths : Tensor) :
  init = (t, inr m) ->
  inputs_ok speech speech_lengths text text_lengths = true ->
  exists t' b,
    forward env m speech speech_lengths text text_lengths = (t', inr b)
    /\ (((w =? 1) = true /\ loss_att b = None
         /\ loss_ctc b <> None /\ loss b = loss_ctc b)
        \/ ((w =? 0) = true /\ loss_ctc b = None
            /\ loss_att b <> None /\ loss b = loss_att b)
        \/ ((0 <? w) = true /\ (w <? 1) = true
            /\ exists c a,
                 loss_ctc b = Some c /\ loss_att b = Some a
                 /\ c = loss_tensor (ctc_loss m speech speech_lengths text
                                       text_lengths)
                 /\ a = attention_loss env m
                          (fst (encoder_result m speech speech_lengths))
                          (snd (encoder_result m speech speech_lengths))
                          text text_lengths
                 /\ loss b = Some (sadd (smul c w) (smul a (1 - w))))).
Proof.
  intros Hinit Hok.
  destruct (init_returns_inv t m Hinit) as (Hw & cmvn & _ & _ & Hm).
  assert (Hcw : ctc_weight m = w) by now rewrite Hm.
  rewrite <- Hcw in Hw |- *.
  destruct (forward_unit_interval_regimes env m _ _ _ _ Hw Hok)
    as [[H1 Hr] | [[H0 Hr] | (Hlt0 & Hlt1 & Hr)]];
    rewrite Hr; do 2 eexists; (split; [reflexivity|]);
    cbn [loss loss_att loss_ctc].
  - left. repeat split; [exact H1 | discriminate].
  - right; left. repeat split; [exact H0 | discriminate].
  - right; right. split; [exact Hlt0|]. split; [exact Hlt1|].
    do 2 eexists. repeat split.
Qed.

End ConstructedModels.

(** * Weights that construction does not check *)
Section ReverseWeight.
Context `{Torch} (env : Env).

(** X5: [reverse_weight] is never validated, and a NaN there poisons
    training.  With a [ctc_weight] in [0,1] and loadable statistics,
    construction with [reverse_weight = NaN] succeeds.  On that model every
    accepted call of [forward] with [ctc_weight != 1.0] returns, and the
    reverse loss has not been computed, [NaN > 0.0] being false: the
    criterion has been applied once, and the attention loss is
    [forward_loss * (1 - NaN) + torch.tensor(0.0) * NaN], with the constant in
    the place of the reverse loss.  That attention loss is NaN, and so is
    the total loss. *)
Theorem nan_reverse_weight_poisons
    (configs : Configs (EncoderConf env) (DecoderConf env))
    (n_in V ig : Z) (w lsm : float)
    (length_normalized use_dynamic_chunk use_dynamic_left_chunk causal : bool)
    (cmvn : GlobalCMVN env)
    (speech speech_lengths text text_lengths : Tensor) :
  (0 <=? w) && (w <=? 1) = true ->
  load_global_cmvn env (mean_istd_path configs) = inr cmvn ->
  exists m,
    __init__ env configs n_in V w ig nan lsm length_normalized
      use_dynamic_chunk use_dynamic_left_chunk causal
    = ([call_FeatureNormalizer], inr m)
    /\ (inputs_ok speech speech_lengths text text_lengths = true ->
        (w =? 1) = false ->
        exists t b a l,
          forward env m speech speech_lengths text text_lengths = (t, inr b)
          /\ filter is_criterion_call t = [call_criterion_att]
          /\ loss_att b = Some a
          /\ a = sadd (smul (forward_loss env m
                               (fst (encoder_result m speech speech_lengths))
                               (snd (encoder_result m speech speech_lengths))
                               text text_lengths)
                         (1 - nan))
                   (smul (scalar_tensor 0) nan)
          /\ value a = S754_nan
          /\ loss b = Some l
          /\ value l = S754_nan).
Proof.
  intros Hw Hload. unfold __init__. rewrite Hw. cbn [assert_].
  rewrite bind_ret. unfold invoke_fallible, bind. rewrite Hload. cbn.
  eexists. split; [reflexivity|].
  intros Hok H1. rewrite (forward_run _ _ _ _ _ _ Hok).
  cbn [ctc_weight reverse_weight]. rewrite H1. cbn [negb].
  unfold attention_loss, r_loss_att, attention_calls.
  cbn [reverse_weight sos eos ignore_id].
  change (0 <? nan) with false. cbv iota.
  match goal with
  | |- context [sadd ?x (smul (scalar_tensor 0) nan)] =>
      assert (Ha : value (sadd x (smul (scalar_tensor 0) nan)) = S754_nan)
        by (apply sadd_nan_r, smul_nan_weight)
  end.
  destruct (w =? 0); cbn [negb blend app];
    do 4 eexists; (split; [reflexivity|]); cbn [loss loss_att loss_ctc];
    (split; [reflexivity|]); (split; [reflexivity|]); (split; [reflexivity|]);
    (split; [exact Ha|]); (split; [reflexivity|]).
  - exact Ha.
  - apply sadd_nan_r, smul_nan_value, Ha.
Qed.

(** X6: with [reverse_weight = 1] the forward direction is weighted by
    zero but not skipped.  The left decoder and its criterion still run; the
    attention loss is [forward_loss * 0 + reverse_loss * 1]: when the forward
    loss is finite it is the reverse loss brought to the dtype the two
    losses promote to (the reverse loss itself where that is its dtype), up
    to the sign of a zero; when the forward loss is infinite or NaN it is
    NaN. *)
Theorem calc_att_loss_reverse_only (self : ConformerModel)
    (encoder_out encoder_mask ys_pad ys_pad_lens : Tensor) (rw_arg : float) :
  (reverse_weight self =? 1) = true ->
  let l_fwd := forward_loss env self encoder_out encoder_mask ys_pad ys_pad_lens in
  let l_rev := reverse_loss env self encoder_out encoder_mask ys_pad ys_pad_lens in
  let D := promote_types (dtype_of l_fwd) (dtype_of l_rev) in
  exists l acc,
    _calc_att_loss env self encoder_out encoder_mask ys_pad ys_pad_lens rw_arg
    = ([call_add_sos_eos (sos self) (eos self) (ignore_id self);
        call_reverse_pad_list;
        call_add_sos_eos (sos self) (eos self) (ignore_id self);
        call_left_decoder;
        call_right_decoder;
        call_criterion_att;
        call_criterion_att;
        call_th_accuracy],
       inr (l, acc))
    /\ l = sadd (smul l_fwd (1 - reverse_weight self))
             (smul l_rev (reverse_weight self))
    /\ (is_finite_scalar l_fwd = true ->
        equal_up_to_zero_sign l (to_dtype D l_rev)
        /\ (D = dtype_of l_rev -> equal_up_to_zero_sign l l_rev))
    /\ (is_finite_scalar l_fwd = false -> value l = S754_nan).
Proof.
  intros H1. cbv zeta. rewrite calc_att_loss_run.
  unfold attention_calls, attention_loss, r_loss_att.
  pose proof (blend_unit_weight
                (forward_loss env self encoder_out encoder_mask ys_pad ys_pad_lens)
                (reverse_loss env self encoder_out encoder_mask ys_pad ys_pad_lens)
                _ H1) as Hl.
  cbv zeta in Hl.
  assert (Hpos : (0 <? reverse_weight self) = true).
  { apply float_eqb_one_inv in H1. now rewrite H1. }
  rewrite Hpos. do 2 eexists. split; [reflexivity|]. split; [reflexivity|].
  destruct (is_finite_scalar
              (forward_loss env self encoder_out encoder_mask ys_pad ys_pad_lens));
    split; intros Hf; try discriminate Hf; [|exact Hl].
  split; [exact Hl|].
  intros HD. rewrite HD, to_dtype_same in Hl. exact Hl.
Qed.

End ReverseWeight.

(** * The model at work on the concrete instance *)
Section Scenarios.
Import Demo.

(** Python's [0.3]. *)
Let f0_3 : float := 0x1.3333333333333p-2.

(** Section 8 of the specification: two utterances, [input_dim = 80],
    [vocab_size = 100], [ctc_weight = 0.5], [reverse_weight = 0.3]; all three
    fields are present and [loss = 0.5 * loss_ctc + 0.5 * loss_att].  With
    [float32] losses 0.25 (CTC), 0.75 (forward) and 1.5 (reverse) the
    attention loss is the [float32] number 0.97500002384185791, in
    hexadecimal [0x1.f33334p-1]. *)
Example scenario_joint_training :
  let c := f32 0.25 in
  let a := f32 0x1.f33334p-1 in
  forward demo_env (demo_model 0.5 f0_3) speech speech_lengths text text_lengths
  = ([call_encoder;
      call_add_sos_eos 99 99 (-1); call_reverse_pad_list;
      call_add_sos_eos 99 99 (-1); call_left_decoder; call_right_decoder;
      call_criterion_att; call_criterion_att; call_th_accuracy;
      call_ctc],
     inr {| loss := Some (sadd (smul c 0.5) (smul a 0.5));
            loss_att := Some a;
            loss_ctc := Some c |}).
Proof. vm_compute. reflexivity. Qed.

(** The arithmetic of the loss tensors is that of their dtype.  On
    [float64] tensors the blend is the one Python floats give; on [float32]
    tensors it is another number, here a larger one. *)
Example scenario_float32_rounding :
  sadd (smul (f64 0.75) (1 - f0_3)) (smul (f64 1.5) f0_3)
  = f64 (0.75 * (1 - f0_3) + 1.5 * f0_3)
  /\ sadd (smul (f32 0.75) (1 - f0_3)) (smul (f32 1.5) f0_3)
     = f32 0x1.f33334p-1
  /\ (0.75 * (1 - f0_3) + 1.5 * f0_3 <? 0x1.f33334p-1) = true.
Proof. vm_compute. repeat split. Qed.

(** [0.1 * loss_ctc + (1 - 0.1) * loss_att] on the [float32] losses nearest
    to 0.2 and 0.3 is the [float32] number 0.29000002145767212, in
    hexadecimal [0x1.28f5c4p-2]. *)
Example scenario_blend_float32 :
  blend 0x1.999999999999ap-4
    (Some (f32 0x1.999999999999ap-3)) (Some (f32 0x1.3333333333333p-2))
  = Some (f32 0x1.28f5c4p-2).
Proof. vm_compute. reflexivity. Qed.

(** [__init__] builds the model used in these scenarios. *)
Example scenario_construction :
  __init__ demo_env demo_configs 80 100 0.5 (-1) f0_3 0 false false false false
  = ([call_FeatureNormalizer], inr (demo_model 0.5 f0_3)).
Proof. reflexivity. Qed.

(** The weights construction refuses: above 1, below 0, and NaN. *)
Example scenario_bad_weights :
  Forall (fun w =>
            __init__ demo_env demo_configs 80 100 w (-1) 0 0 false false false false
            = ([], inl (AssertionError (args_float w))))
         [1.5; -0.25; nan; infinity].
Proof. repeat constructor. Qed.

(** A [speech] tensor of rank 0 has no batch dimension to compare: the
    index into its shape raises before the assertion is decided. *)
Example scenario_no_batch_dim :
  forward demo_env (demo_model 0.5 0) (tensor 0) speech_lengths text text_lengths
  = ([], inl IndexError).
Proof. reflexivity. Qed.

(** The chained comparison stops at the first mismatch: a rank-0 [text]
    is never indexed when [speech] and [speech_lengths] already differ. *)
Example scenario_short_circuit :
  forward demo_env (demo_model 0.5 0) speech ([3%nat], 0) (tensor 0) text_lengths
  = ([], inl (AssertionError
                (args_shapes [2; 5; 80]%nat [3%nat] [] [2%nat]))).
Proof. reflexivity. Qed.

End Scenarios.

(** * The theorems at concrete inputs *)
Section AtConcreteInputs.
Import Demo.



Lemma init_validates_ctc_weight_witness :
  __init__ demo_env demo_configs 80 100 1.5 (-1) 0.25 0 false false false false
  = ([], inl (AssertionError (args_float 1.5)))
  /\ exists m,
       outcome (__init__ demo_env demo_configs 80 100 0.5 (-1) 0.25 0
                  false false false false) = inr m
       /\ ctc_weight m = 0.5.
Proof.
  split.
  - apply (init_validates_ctc_weight demo_env demo_configs 80 100 (-1) 1.5 0.25 0
             false false false false). reflexivity.
  - apply (proj2 (init_validates_ctc_weight demo_env demo_configs 80 100 (-1) 0.5
                    0.25 0 false false false false) eq_refl) with (cmvn := tt).
    reflexivity.
Defined.

Lemma init_sos_eq_eos_witness :
  sos (demo_model 0.5 0.25) = eos (demo_model 0.5 0.25)
  /\ sos (demo_model 0.5 0.25) = 99%Z.
Proof.
  destruct (init_sos_eq_eos demo_env demo_configs 80 100 (-1) 0.5 0.25 0
              false false false false [call_FeatureNormalizer]
              (demo_model 0.5 0.25) eq_refl) as (Heq & Hsos & _).
  split; [exact Heq | exact Hsos].
Defined.

Lemma forward_total_loss_blend_witness :
  exists t b,
    forward demo_env (demo_model 0.5 0.25) speech speech_lengths text text_lengths
    = (t, inr b)
    /\ loss b = Some (f32 0.59375).
Proof.
  destruct (forward_total_loss_blend demo_env (demo_model 0.5 0.25) speech
              speech_lengths text text_lengths eq_refl)
    as (t & b & Hrun & Hboth & _).
  destruct (Hboth eq_refl eq_refl) as (c & a & _ & _ & Hc & Ha & Hl).
  exists t, b. split; [exact Hrun|]. rewrite Hl, Hc, Ha. reflexivity.
Defined.

Lemma forward_ctc_only_witness :
  forward demo_env (demo_model 1 0.25) speech speech_lengths text text_lengths
  = ([call_encoder; call_ctc],
     inr {| loss := Some (f32 0.25);
            loss_att := None;
            loss_ctc := Some (f32 0.25) |}).
Proof.
  exact (forward_ctc_only demo_env (demo_model 1 0.25) speech speech_lengths text
           text_lengths eq_refl eq_refl).
Defined.

Lemma forward_attention_only_witness :
  exists a,
    outcome (forward demo_env (demo_model 0 0.25) speech speech_lengths text
               text_lengths)
    = inr {| loss := Some a; loss_att := Some a; loss_ctc := None |}
    /\ a = f32 0.9375.
Proof.
  destruct (forward_attention_only demo_env (demo_model 0 0.25) speech
              speech_lengths text text_lengths eq_refl eq_refl)
    as (a & Hrun & Ha & _).
  exists a. rewrite Hrun. split; [reflexivity|]. rewrite Ha. reflexivity.
Defined.

Lemma forward_loss_never_none_witness :
  forward demo_env (demo_model 0.5 0.25) speech speech_lengths text text_lengths
  = ([call_encoder;
      call_add_sos_eos 99 99 (-1); call_reverse_pad_list;
      call_add_sos_eos 99 99 (-1); call_left_decoder; call_right_decoder;
      call_criterion_att; call_criterion_att; call_th_accuracy;
      call_ctc],
     inr {| loss := Some (f32 0.59375);
            loss_att := Some (f32 0.9375);
            loss_ctc := Some (f32 0.25) |}).
Proof.
  destruct (proj1 (forward_loss_never_none demo_env (demo_model 0.5 0.25) speech
                     speech_lengths text text_lengths eq_refl) eq_refl)
    as [[H1 _] | [[H0 _] | (_ & _ & Hrun)]].
  - discriminate H1.
  - discriminate H0.
  - rewrite Hrun. reflexivity.
Defined.



Lemma calc_att_loss_forward_only_witness :
  exists t acc,
    _calc_att_loss demo_env (demo_model 0.5 0) (tensor 0.5) (tensor 1) text
      text_lengths 0
    = (t, inr (f32 0.75, acc))
    /\ existsb is_right_decoder_call t = false
    /\ List.length (filter is_criterion_call t) = 1%nat.
Proof.
  destruct (calc_att_loss_forward_only demo_env (demo_model 0.5 0) (tensor 0.5)
              (tensor 1) text text_lengths 0 eq_refl)
    as (l & acc & Hrun & Hl & _).
  eexists. exists acc. rewrite Hrun, Hl. repeat split.
Defined.

Lemma forward_bundle_presence_witness :
  let b := {| loss := Some (f32 0.25);
              loss_att := None;
              loss_ctc := Some (f32 0.25) |} in
  (loss_att b = None <-> (ctc_weight (demo_model 1 0.25) =? 1) = true)
  /\ (loss_ctc b = None <-> (ctc_weight (demo_model 1 0.25) =? 0) = true).
Proof.
  destruct (forward_bundle_presence demo_env (demo_model 1 0.25) speech
              speech_lengths text text_lengths [call_encoder; call_ctc]
              {| loss := Some (f32 0.25);
                 loss_att := None;
                 loss_ctc := Some (f32 0.25) |}
              eq_refl) as (Hatt & Hctc & _).
  split; [exact Hatt | exact Hctc].
Defined.

Lemma constructed_model_regimes_witness :
  exists t b,
    forward demo_env (demo_model 0.5 0.25) speech speech_lengths text text_lengths
    = (t, inr b)
    /\ loss b = Some (f32 0.59375).
Proof.
  destruct (constructed_model_regimes demo_env demo_configs 80 100 (-1) 0.5 0.25 0
              false false false false [call_FeatureNormalizer]
              (demo_model 0.5 0.25) speech speech_lengths text text_lengths
              eq_refl eq_refl)
    as (t & b & Hrun
        & [(H1 & _) | [(H0 & _) | (_ & _ & c & a & _ & _ & Hc & Ha & Hl)]]).
  - discriminate H1.
  - discriminate H0.
  - exists t, b. split; [exact Hrun|]. rewrite Hl, Hc, Ha. reflexivity.
Defined.

Lemma nan_reverse_weight_poisons_witness :
  exists m,
    __init__ demo_env demo_configs 80 100 0.5 (-1) nan 0 false false false false
    = ([call_FeatureNormalizer], inr m)
    /\ exists t b l,
         forward demo_env m speech speech_lengths text text_lengths = (t, inr b)
         /\ filter is_criterion_call t = [call_criterion_att]
         /\ loss b = Some l
         /\ value l = S754_nan.
Proof.
  destruct (nan_reverse_weight_poisons demo_env demo_configs 80 100 (-1) 0.5 0
              false false false false tt speech speech_lengths text text_lengths
              eq_refl eq_refl) as (m & Hinit & Hfwd).
  exists m. split; [exact Hinit|].
  destruct (Hfwd eq_refl eq_refl)
    as (t & b & a & l & Hrun & Hcalls & _ & _ & _ & Hloss & Hnan).
  exists t, b, l. split; [exact Hrun|]. split; [exact Hcalls|].
  split; [exact Hloss | exact Hnan].
Defined.

Lemma calc_att_loss_reverse_only_witness :
  exists t acc,
    _calc_att_loss demo_env (demo_model 0.5 1) (tensor 0.5) (tensor 1) text
      text_lengths 0
    = (t, inr (f32 1.5, acc)).
Proof.
  destruct (calc_att_loss_reverse_only demo_env (demo_model 0.5 1) (tensor 0.5)
              (tensor 1) text text_lengths 0 eq_refl)
    as (l & acc & Hrun & _ & Hfin & _).
  eexists. exists acc. rewrite Hrun.
  destruct (Hfin eq_refl) as [[-> | [Hz _]] _];
    [reflexivity | discriminate Hz].
Defined.

End AtConcreteInputs.
